(** * gpiolcd: an HD44780 character LCD driven over GPIO lines

    A shallow embedding of [gpiolcd.c] and the properties of its cursor
    state machine, address computation, input interpreter and geometry
    check.

    Conventions of the embedding:
    - a C [int] is a [Z]; every [int] operation that can leave the 32-bit
      range is written with [wrap_int] (signed overflow is undefined in C;
      the wrap-around is what two's complement targets compute), a
      [uint8_t] with [wrap_u8];
    - the [hd_gpio] handles are left out of the state: a line is named by
      its pin role and its number [pins[pin]]; a handle stored outside the
      [lines] array, in [hd44780_prepare], makes the outcome undefined;
    - the global [struct hd44780_state] is threaded through a small monad
      [M] that also collects the trace of externally visible effects
      ([gpiod_line_set_value] calls and [usleep] delays) and can stop early
      ([exit], a failed [assert]);
    - [debug] output to stderr is not part of the trace, and the error code
      of [gpiod_line_set_value] is dropped, as the source only logs it. *)

From Stdlib Require Import ZArith List Bool Lia.
Import ListNotations.
Open Scope Z_scope.

(** ** Machine integers *)

Definition INT_MIN : Z := - 2 ^ 31.
Definition INT_MAX : Z := 2 ^ 31 - 1.

Definition wrap_int (z : Z) : Z := (z + 2 ^ 31) mod 2 ^ 32 - 2 ^ 31.
Definition wrap_u8 (z : Z) : Z := z mod 256.

Definition int_range (z : Z) : Prop := INT_MIN <= z <= INT_MAX.

(** ** Enumerations and constants of the source *)

Inductive command : Type :=
| CMD_RESET | CMD_BKSP | CMD_CLR | CMD_NL
| CMD_CR | CMD_HOME | CMD_TAB | CMD_FLASH.

Inductive reg_type : Type := HD_COMMAND | HD_DATA.

(* enum hd_pin_id: indices into the [pins] array *)
Definition HD_PIN_DAT0 : Z := 0.
Definition HD_PIN_DAT1 : Z := 1.
Definition HD_PIN_DAT2 : Z := 2.
Definition HD_PIN_DAT3 : Z := 3.
Definition HD_PIN_DAT4 : Z := 4.
Definition HD_PIN_DAT5 : Z := 5.
Definition HD_PIN_DAT6 : Z := 6.
Definition HD_PIN_DAT7 : Z := 7.
Definition HD_PIN_RS : Z := 8.
Definition HD_PIN_RW : Z := 9.
Definition HD_PIN_E : Z := 10.
Definition HD_PIN_BL : Z := 11.
Definition HD_PIN_COUNT : Z := 12.

Definition HD_CMD_CLEAR : Z := 0x01.
Definition HD_CMD_HOME : Z := 0x02.
Definition HD_CMD_ENTRYMODE : Z := 0x04.
Definition HD_ENTRY_INCR : Z := 0x02.
Definition HD_CMD_DISPCTRL : Z := 0x08.
Definition HD_DISP_ON : Z := 0x04.
Definition HD_CURSOR_ON : Z := 0x02.
Definition HD_BLINK_ON : Z := 0x01.
Definition HD_CMD_MOVE : Z := 0x10.
Definition HD_MOVE_CURSOR : Z := 0x00.
Definition HD_MOVE_LEFT : Z := 0x00.
Definition HD_CMD_SETMODE : Z := 0x20.
Definition HD_MODE_8BIT_IF : Z := 0x10.
Definition HD_MODE_2LINES : Z := 0x08.
Definition HD_MODE_LARGE_FONT : Z := 0x04.
Definition HD_CMD_SET_ADDR : Z := 0x80.
Definition HD_LINE1_DRAM_OFFSET : Z := 0x40.

Definition EX_USAGE : Z := 64.

(** ** The driver state *)

Record hd44780_state : Type := mkState {
  hd_ifwidth : Z;
  hd_lines : Z;
  hd_cols : Z;
  hd_blink : Z;
  hd_cursor : Z;
  hd_font : Z;
  hd_bl_on : Z;
  hd_col : Z;
  hd_row : Z;
  pins : list Z
}.

Definition set_hd_col (s : hd44780_state) (v : Z) : hd44780_state :=
  mkState (hd_ifwidth s) (hd_lines s) (hd_cols s) (hd_blink s) (hd_cursor s)
          (hd_font s) (hd_bl_on s) v (hd_row s) (pins s).

Definition set_hd_row (s : hd44780_state) (v : Z) : hd44780_state :=
  mkState (hd_ifwidth s) (hd_lines s) (hd_cols s) (hd_blink s) (hd_cursor s)
          (hd_font s) (hd_bl_on s) (hd_col s) v (pins s).

Definition set_pins (s : hd44780_state) (p : list Z) : hd44780_state :=
  mkState (hd_ifwidth s) (hd_lines s) (hd_cols s) (hd_blink s) (hd_cursor s)
          (hd_font s) (hd_bl_on s) (hd_col s) (hd_row s) p.

(* pins[pin]; the array has HD_PIN_COUNT entries *)
Definition pin_line (p : list Z) (pin : Z) : Z := nth (Z.to_nat pin) p (-1).

(* pins[pin] = v *)
Fixpoint list_set (l : list Z) (n : nat) (v : Z) : list Z :=
  match l, n with
  | [], _ => []
  | _ :: l', O => v :: l'
  | x :: l', S n' => x :: list_set l' n' v
  end.

(** ** Effects: the trace and the monad *)

Inductive event : Type :=
| GpioSet (pin : Z) (line : Z) (value : bool)  (* gpiod_line_set_value *)
| Usleep (usec : Z).

Definition trace : Type := list event.

Inductive stop : Type :=
| ExitCode (code : Z)    (* exit(code) *)
| AssertFailed.          (* assert(...) failed: abort() *)

Inductive result (A : Type) : Type :=
| Ok (a : A) (s : hd44780_state) (t : trace)
| Stop (why : stop) (t : trace)
| OutOfFuel.
Arguments Ok {A} a s t.
Arguments Stop {A} why t.
Arguments OutOfFuel {A}.

Definition M (A : Type) : Type := hd44780_state -> result A.

Definition ret {A} (a : A) : M A := fun s => Ok a s [].

Definition bind {A B} (m : M A) (f : A -> M B) : M B := fun s =>
  match m s with
  | Ok a s1 t1 =>
      match f a s1 with
      | Ok b s2 t2 => Ok b s2 (t1 ++ t2)
      | Stop w t2 => Stop w (t1 ++ t2)
      | OutOfFuel => OutOfFuel
      end
  | Stop w t1 => Stop w t1
  | OutOfFuel => OutOfFuel
  end.

Declare Scope lcd_scope.
Delimit Scope lcd_scope with lcd.
Notation "x <- m ;; k" := (bind m (fun x => k))
  (at level 61, m at next level, right associativity) : lcd_scope.
Notation "m ;; k" := (bind m (fun _ => k))
  (at level 61, right associativity) : lcd_scope.
Open Scope lcd_scope.

Definition get : M hd44780_state := fun s => Ok s s [].
Definition modify (f : hd44780_state -> hd44780_state) : M unit :=
  fun s => Ok tt (f s) [].
Definition emit (e : event) : M unit := fun s => Ok tt s [e].
Definition stop_with {A} (w : stop) : M A := fun _ => Stop w [].

Definition usleep (usec : Z) : M unit := emit (Usleep usec).

(* for (x in l) body(x) *)
Fixpoint for_each {A} (l : list A) (body : A -> M unit) : M unit :=
  match l with
  | [] => ret tt
  | x :: l' => body x ;; for_each l' body
  end.

(* while (cond) body, with a bound on the number of iterations *)
Fixpoint while (fuel : nat) (cond : hd44780_state -> bool) (body : M unit)
  : M unit :=
  s <- get ;;
  if cond s then
    match fuel with
    | O => fun _ => OutOfFuel
    | S fuel' => body ;; while fuel' cond body
    end
  else ret tt.

(* while (i-- > 0) body, for a local counter i the body does not touch *)
Fixpoint countdown (i : nat) (body : M unit) : M unit :=
  match i with
  | O => ret tt
  | S i' => body ;; countdown i' body
  end.

(** ** Signal transmitter *)

Definition hd44780_set_pin (pin : Z) (on : bool) : M unit :=
  s <- get ;;
  let line := pin_line (pins s) pin in
  if line =? -1 then stop_with AssertFailed
  else emit (GpioSet pin line on).

Definition hd44780_strobe : M unit :=
  usleep 20 ;;
  hd44780_set_pin HD_PIN_E true ;;
  usleep 40 ;;
  hd44780_set_pin HD_PIN_E false ;;
  usleep 20.

(* ((1 << n) & data) != 0 *)
Definition bit_set (n : Z) (data : Z) : bool :=
  negb (Z.land (Z.shiftl 1 n) data =? 0).

Definition hd44780_output (type : reg_type) (data0 : Z) : M unit :=
  let data := wrap_u8 data0 in
  hd44780_set_pin HD_PIN_RW false ;;
  match type with
  | HD_COMMAND => hd44780_set_pin HD_PIN_RS false
  | HD_DATA => hd44780_set_pin HD_PIN_RS true
  end ;;
  for_each [0; 1; 2; 3]
    (fun i => hd44780_set_pin (HD_PIN_DAT0 + i) (bit_set (i + 4) data)) ;;
  hd44780_strobe ;;
  for_each [0; 1; 2; 3]
    (fun i => hd44780_set_pin (HD_PIN_DAT0 + i) (bit_set i data)) ;;
  hd44780_strobe.

Definition hd44780_output4 (type : reg_type) (data0 : Z) : M unit :=
  let data := wrap_u8 data0 in
  hd44780_set_pin HD_PIN_RW false ;;
  match type with
  | HD_COMMAND => hd44780_set_pin HD_PIN_RS false
  | HD_DATA => hd44780_set_pin HD_PIN_RS true
  end ;;
  for_each [0; 1; 2; 3]
    (fun i => hd44780_set_pin (HD_PIN_DAT0 + i) (bit_set (i + 4) data)) ;;
  hd44780_strobe.

(** ** Display state machine *)

Definition hd44780_calc_addr (s : hd44780_state) : Z :=
  let addr := wrap_u8 (hd_col s) in
  let addr :=
    if (hd_row s =? 1) || (hd_row s =? 3)
    then wrap_u8 (addr + HD_LINE1_DRAM_OFFSET) else addr in
  let addr :=
    if (hd_row s =? 2) || (hd_row s =? 3)
    then wrap_u8 (wrap_int (addr + hd_cols s)) else addr in
  addr.

Definition hd44780_putc (c : Z) : M unit :=
  s <- get ;;
  if hd_col s =? hd_cols s then ret tt
  else
    hd44780_output HD_DATA c ;;
    usleep 40 ;;
    modify (fun s => set_hd_col s (wrap_int (hd_col s + 1))).

(* val |= HD_DISP_ON; if (hd_cursor) val |= HD_CURSOR_ON;
   if (hd_blink) val |= HD_BLINK_ON; *)
Definition dispctrl_on (s : hd44780_state) (val : Z) : Z :=
  let val := Z.lor val HD_DISP_ON in
  let val := if hd_cursor s =? 0 then val else Z.lor val HD_CURSOR_ON in
  let val := if hd_blink s =? 0 then val else Z.lor val HD_BLINK_ON in
  val.

(* the body of case CMD_FLASH, which case CMD_BKSP also enters through
   hd44780_command(state, CMD_FLASH) *)
Definition cmd_flash : M unit :=
  for_each [0; 1]
    (fun i =>
       let val := HD_CMD_DISPCTRL in
       hd44780_output HD_COMMAND val ;;
       usleep 200000 ;;
       s <- get ;;
       let val := dispctrl_on s val in
       hd44780_output HD_COMMAND val ;;
       if i <? 3 then usleep 200000 else usleep 1000).

(* the statements of case CMD_RESET, up to the FALLTHROUGH *)
Definition cmd_reset_init : M unit :=
  let val := Z.lor HD_CMD_SETMODE HD_MODE_8BIT_IF in
  hd44780_output4 HD_COMMAND val ;;
  usleep 10000 ;;
  hd44780_output4 HD_COMMAND val ;;
  usleep 1000 ;;
  hd44780_output4 HD_COMMAND val ;;
  usleep 1000 ;;
  s <- get ;;
  let val := HD_CMD_SETMODE in
  let val := if hd_ifwidth s =? 8 then Z.lor val HD_MODE_8BIT_IF else val in
  let val := if hd_lines s =? 1 then val else Z.lor val HD_MODE_2LINES in
  let val := if hd_font s =? 0 then val else Z.lor val HD_MODE_LARGE_FONT in
  (if hd_ifwidth s =? 4 then hd44780_output4 HD_COMMAND val else ret tt) ;;
  hd44780_output HD_COMMAND val ;;
  usleep 10000 ;;
  let val := HD_CMD_DISPCTRL in
  hd44780_output HD_COMMAND val ;;
  usleep 1000 ;;
  let val := dispctrl_on s val in
  hd44780_output HD_COMMAND val ;;
  usleep 1000 ;;
  let val := Z.lor HD_CMD_ENTRYMODE HD_ENTRY_INCR in
  hd44780_output HD_COMMAND val ;;
  usleep 1000.

(* the statements of case CMD_CLR *)
Definition cmd_clr : M unit :=
  hd44780_output HD_COMMAND HD_CMD_CLEAR ;;
  usleep 2000 ;;
  modify (fun s => set_hd_col s 0) ;;
  modify (fun s => set_hd_row s 0).

Definition hd44780_command (fuel : nat) (cmd : command) : M unit :=
  match cmd with
  | CMD_RESET => cmd_reset_init ;; cmd_clr
  | CMD_CLR => cmd_clr
  | CMD_BKSP =>
      s <- get ;;
      (if hd_col s >? 0 then
         hd44780_output HD_COMMAND
           (Z.lor (Z.lor HD_CMD_MOVE HD_MOVE_CURSOR) HD_MOVE_LEFT) ;;
         modify (fun s => set_hd_col s (wrap_int (hd_col s - 1))) ;;
         hd44780_putc 32 ;;
         hd44780_output HD_COMMAND
           (Z.lor (Z.lor HD_CMD_MOVE HD_MOVE_CURSOR) HD_MOVE_LEFT) ;;
         modify (fun s => set_hd_col s (wrap_int (hd_col s - 1)))
       else cmd_flash) ;;
      usleep 1000
  | CMD_NL =>
      while fuel (fun s => hd_col s <? hd_cols s) (hd44780_putc 32) ;;
      s <- get ;;
      if hd_row s <? wrap_int (hd_lines s - 1) then
        modify (fun s => set_hd_row s (wrap_int (hd_row s + 1))) ;;
        modify (fun s => set_hd_col s 0) ;;
        s <- get ;;
        let val := hd44780_calc_addr s in
        hd44780_output HD_COMMAND (Z.lor HD_CMD_SET_ADDR val) ;;
        usleep 1000
      else ret tt
  | CMD_CR =>
      modify (fun s => set_hd_col s 0) ;;
      s <- get ;;
      let val := hd44780_calc_addr s in
      hd44780_output HD_COMMAND (Z.lor HD_CMD_SET_ADDR val) ;;
      usleep 1000
  | CMD_HOME =>
      hd44780_output HD_COMMAND HD_CMD_HOME ;;
      usleep 2000 ;;
      modify (fun s => set_hd_col s 0) ;;
      modify (fun s => set_hd_row s 0)
  | CMD_TAB =>
      s <- get ;;
      let i := wrap_int (8 - Z.rem (hd_col s) 8) in
      let i := if wrap_int (hd_col s + i) >? hd_cols s
               then wrap_int (hd_cols s - hd_col s) else i in
      countdown (Z.to_nat i) (hd44780_putc 32)
  | CMD_FLASH => cmd_flash
  end.

(** ** Input interpreter

    [esc] is the function's [static int]; it is passed in and the new
    value is returned. *)

(* isascii(ch) && isprint(ch), in the C locale *)
Definition isascii_print (ch : Z) : bool := (32 <=? ch) && (ch <=? 126).

Definition do_char (fuel : nat) (esc : Z) (ch : Z) : M Z :=
  if negb (esc =? 0) then
    (if ch =? 82 (* 'R' *) then hd44780_command fuel CMD_RESET
     else if ch =? 72 (* 'H' *) then hd44780_command fuel CMD_HOME
     else ret tt) ;;
    ret 0
  else if ch =? 27 then ret 1
  else
    (if ch =? 10 then hd44780_command fuel CMD_NL
     else if ch =? 13 then hd44780_command fuel CMD_CR
     else if ch =? 9 then hd44780_command fuel CMD_TAB
     else if ch =? 7 then hd44780_command fuel CMD_FLASH
     else if ch =? 8 then hd44780_command fuel CMD_BKSP
     else if ch =? 12 then hd44780_command fuel CMD_CLR
     else if isascii_print ch then hd44780_putc ch
     else ret tt) ;;
    ret esc.

(** ** Configuration checks of [main]

    The statements between the option loop and [hd44780_prepare]; [usage]
    prints and calls [exit(EX_USAGE)]. *)

Definition usage {A} : M A := stop_with (ExitCode EX_USAGE).

(* hd_lines != 1 && hd_lines != 2 && hd_lines != 4 *)
Definition lines_unsupported (lines : Z) : bool :=
  negb (lines =? 1) && negb (lines =? 2) && negb (lines =? 4).

(* hd_cols <= 0 || hd_lines * hd_cols > 80, the product taken in int *)
Definition cols_unsupported (lines cols : Z) : bool :=
  (cols <=? 0) || (wrap_int (lines * cols) >? 80).

Definition main_checks : M unit :=
  s <- get ;;
  (if negb (hd_ifwidth s =? 4) then usage else ret tt) ;;
  (* for (i = 1; i < hd_ifwidth; i++), with hd_ifwidth == 4 here *)
  for_each [1; 2; 3]
    (fun i => modify (fun s =>
       set_pins s (list_set (pins s) (Z.to_nat (HD_PIN_DAT0 + i))
                            (wrap_int (pin_line (pins s) HD_PIN_DAT0 + i))))) ;;
  (if lines_unsupported (hd_lines s) then usage else ret tt) ;;
  (if cols_unsupported (hd_lines s) (hd_cols s) then usage else ret tt) ;;
  s <- get ;;
  (if negb (hd_bl_on s =? 0) && (pin_line (pins s) HD_PIN_BL =? -1)
   then usage else ret tt).

(* the state main has built after parsing the given -h and -w values, all
   other options at their defaults *)
Definition configured (lines cols : Z) : hd44780_state :=
  mkState 4 lines cols 0 0 0 1 0 0 [4; -1; -1; -1; -1; -1; -1; -1; 0; 1; 2; 3].

(** ** The input loop of [main]

    [do_char] on every character of the input, in order. *)

Fixpoint feed (fuel : nat) (esc : Z) (input : list Z) : M Z :=
  match input with
  | [] => ret esc
  | ch :: rest => esc' <- do_char fuel esc ch ;; feed fuel esc' rest
  end.

(** ** Expected traces of the signal transmitter *)

Definition set_ev (p : list Z) (pin : Z) (on : bool) : event :=
  GpioSet pin (pin_line p pin) on.

Definition strobe_events (p : list Z) : trace :=
  [Usleep 20; set_ev p HD_PIN_E true; Usleep 40; set_ev p HD_PIN_E false;
   Usleep 20].

Definition nibble_events (p : list Z) (shift : Z) (data : Z) : trace :=
  map (fun i => set_ev p (HD_PIN_DAT0 + i) (bit_set (i + shift) data))
      [0; 1; 2; 3].

Definition is_data (type : reg_type) : bool :=
  match type with HD_COMMAND => false | HD_DATA => true end.

Definition output4_events (p : list Z) (type : reg_type) (data : Z) : trace :=
  [set_ev p HD_PIN_RW false; set_ev p HD_PIN_RS (is_data type)]
  ++ nibble_events p 4 (wrap_u8 data) ++ strobe_events p.

Definition output_events (p : list Z) (type : reg_type) (data : Z) : trace :=
  output4_events p type data
  ++ nibble_events p 0 (wrap_u8 data) ++ strobe_events p.

(* the pins that hd44780_output drives are assigned *)
Definition pins_ok (p : list Z) : bool :=
  forallb (fun pin => negb (pin_line p pin =? -1))
          [HD_PIN_DAT0; HD_PIN_DAT1; HD_PIN_DAT2; HD_PIN_DAT3;
           HD_PIN_RS; HD_PIN_RW; HD_PIN_E].

Definition putc_events (p : list Z) (c : Z) : trace :=
  output_events p HD_DATA c ++ [Usleep 40].

Fixpoint repeat_events (n : nat) (t : trace) : trace :=
  match n with
  | O => []
  | S n' => t ++ repeat_events n' t
  end.

(** ** State predicates *)

(* the cursor-range invariant of the data model *)
Definition cursor_inv (s : hd44780_state) : Prop :=
  0 <= hd_row s < hd_lines s /\ 0 <= hd_col s <= hd_cols s.

(* the geometry and cursor fields hold C ints *)
Definition state_int (s : hd44780_state) : Prop :=
  int_range (hd_lines s) /\ int_range (hd_cols s) /\
  int_range (hd_col s) /\ int_range (hd_row s).

(* the geometry the specification calls valid *)
Definition geometry_ok (lines cols : Z) : Prop :=
  (lines = 1 \/ lines = 2 \/ lines = 4) /\ cols > 0 /\ lines * cols <= 80.

(* everything but the cursor is left alone *)
Definition same_config (s s' : hd44780_state) : Prop :=
  hd_ifwidth s' = hd_ifwidth s /\ hd_lines s' = hd_lines s /\
  hd_cols s' = hd_cols s /\ hd_blink s' = hd_blink s /\
  hd_cursor s' = hd_cursor s /\ hd_font s' = hd_font s /\
  hd_bl_on s' = hd_bl_on s /\ pins s' = pins s.

(* the DDRAM offset of the cursor's row *)
Definition row_offset (s : hd44780_state) : Z :=
  (if (hd_row s =? 1) || (hd_row s =? 3) then HD_LINE1_DRAM_OFFSET else 0)
  + (if (hd_row s =? 2) || (hd_row s =? 3) then hd_cols s else 0).

(** ** Expected traces of the commands *)

Definition clear_events (p : list Z) : trace :=
  output_events p HD_COMMAND HD_CMD_CLEAR ++ [Usleep 2000].

Definition home_events (p : list Z) : trace :=
  output_events p HD_COMMAND HD_CMD_HOME ++ [Usleep 2000].

Definition setmode_val (s : hd44780_state) : Z :=
  let val := HD_CMD_SETMODE in
  let val := if hd_ifwidth s =? 8 then Z.lor val HD_MODE_8BIT_IF else val in
  let val := if hd_lines s =? 1 then val else Z.lor val HD_MODE_2LINES in
  let val := if hd_font s =? 0 then val else Z.lor val HD_MODE_LARGE_FONT in
  val.

Definition reset_init_events (s : hd44780_state) : trace :=
  let p := pins s in
  let wake := Z.lor HD_CMD_SETMODE HD_MODE_8BIT_IF in
  output4_events p HD_COMMAND wake ++ [Usleep 10000] ++
  output4_events p HD_COMMAND wake ++ [Usleep 1000] ++
  output4_events p HD_COMMAND wake ++ [Usleep 1000] ++
  (if hd_ifwidth s =? 4
   then output4_events p HD_COMMAND (setmode_val s) else []) ++
  output_events p HD_COMMAND (setmode_val s) ++ [Usleep 10000] ++
  output_events p HD_COMMAND HD_CMD_DISPCTRL ++ [Usleep 1000] ++
  output_events p HD_COMMAND (dispctrl_on s HD_CMD_DISPCTRL) ++
  [Usleep 1000] ++
  output_events p HD_COMMAND (Z.lor HD_CMD_ENTRYMODE HD_ENTRY_INCR) ++
  [Usleep 1000].

Definition flash_once_events (s : hd44780_state) : trace :=
  output_events (pins s) HD_COMMAND HD_CMD_DISPCTRL ++ [Usleep 200000] ++
  output_events (pins s) HD_COMMAND (dispctrl_on s HD_CMD_DISPCTRL) ++
  [Usleep 200000].

Definition flash_events (s : hd44780_state) : trace :=
  flash_once_events s ++ flash_once_events s.

Definition move_left : Z :=
  Z.lor (Z.lor HD_CMD_MOVE HD_MOVE_CURSOR) HD_MOVE_LEFT.

Definition bksp_events (p : list Z) : trace :=
  output_events p HD_COMMAND move_left ++ putc_events p 32 ++
  output_events p HD_COMMAND move_left ++ [Usleep 1000].

Definition set_addr_events (p : list Z) (addr : Z) : trace :=
  output_events p HD_COMMAND (Z.lor HD_CMD_SET_ADDR addr) ++ [Usleep 1000].

(* the gpiod_line_set_value calls of a trace, delays dropped *)
Definition line_toggles (t : trace) : trace :=
  filter (fun e => match e with GpioSet _ _ _ => true | Usleep _ => false end)
         t.

(* cursor at the top left *)
Definition cursor_home (s : hd44780_state) : hd44780_state :=
  set_hd_row (set_hd_col s 0) 0.

(* the operations of the display state machine *)
Inductive operation : Type :=
| OpCommand (cmd : command)
| OpPutc (c : Z).

Definition run_operation (fuel : nat) (op : operation) : M unit :=
  match op with
  | OpCommand cmd => hd44780_command fuel cmd
  | OpPutc c => hd44780_putc c
  end.

(* keep the outcome, replace the returned value *)
Definition with_value {A B} (b : B) (r : result A) : result B :=
  match r with
  | Ok _ s t => Ok b s t
  | Stop w t => Stop w t
  | OutOfFuel => OutOfFuel
  end.

(** ** The display module, seen from the bus

    The HD44780 itself is hardware and not part of the source.  To read a
    trace of line changes as display content, the receiving side is
    modelled as far as the driver uses it, after the datasheet: in 4-bit
    mode the module latches the four data lines on each falling edge of E
    while R/W is low, upper nibble first; a data byte is stored at the
    address counter, which then moves right (the entry mode that
    CMD_RESET programs); the address counter is taken modulo 128. *)

Record lcd_core : Type := mkCore {
  lcd_ac : Z;            (* address counter, the module's cursor *)
  lcd_ddram : Z -> Z     (* display data RAM: character code per address *)
}.

Record lcd : Type := mkLcd {
  lcd_rs : bool;
  lcd_rw : bool;
  lcd_e : bool;
  lcd_db : list bool;    (* DB4..DB7 as last driven *)
  lcd_hi : option Z;     (* upper nibble received, lower one awaited *)
  lcd_mem : lcd_core
}.

Definition ddram_write (m : Z -> Z) (a v : Z) : Z -> Z :=
  fun x => if x =? a then v else m x.

(* one byte received with RS high (data) or low (instruction) *)
Definition lcd_exec (rs : bool) (byte : Z) (c : lcd_core) : lcd_core :=
  if rs then
    mkCore ((lcd_ac c + 1) mod 128) (ddram_write (lcd_ddram c) (lcd_ac c) byte)
  else if 0x80 <=? byte then mkCore (Z.land byte 0x7f) (lcd_ddram c)
  else if 0x20 <=? byte then c
  else if 0x10 <=? byte then
    if Z.testbit byte 3 then c
    else if Z.testbit byte 2
         then mkCore ((lcd_ac c + 1) mod 128) (lcd_ddram c)
         else mkCore ((lcd_ac c - 1) mod 128) (lcd_ddram c)
  else if 0x04 <=? byte then c
  else if 0x02 <=? byte then mkCore 0 (lcd_ddram c)
  else if 0x01 <=? byte then mkCore 0 (fun _ => 32)
  else c.

Definition nibble_of (db : list bool) : Z :=
  fold_right (fun (b : bool) acc => (if b then 1 else 0) + 2 * acc) 0 db.

Fixpoint set_nth_bool (l : list bool) (n : nat) (v : bool) : list bool :=
  match l, n with
  | [], _ => []
  | _ :: l', O => v :: l'
  | x :: l', S n' => x :: set_nth_bool l' n' v
  end.

Definition lcd_falling_edge (d : lcd) : lcd :=
  if lcd_rw d then d
  else
    let n := nibble_of (lcd_db d) in
    match lcd_hi d with
    | None =>
        mkLcd (lcd_rs d) (lcd_rw d) (lcd_e d) (lcd_db d) (Some n) (lcd_mem d)
    | Some h =>
        mkLcd (lcd_rs d) (lcd_rw d) (lcd_e d) (lcd_db d) None
              (lcd_exec (lcd_rs d) (16 * h + n) (lcd_mem d))
    end.

Definition lcd_step (d : lcd) (e : event) : lcd :=
  match e with
  | Usleep _ => d
  | GpioSet pin _ v =>
      if pin =? HD_PIN_RS then
        mkLcd v (lcd_rw d) (lcd_e d) (lcd_db d) (lcd_hi d) (lcd_mem d)
      else if pin =? HD_PIN_RW then
        mkLcd (lcd_rs d) v (lcd_e d) (lcd_db d) (lcd_hi d) (lcd_mem d)
      else if pin =? HD_PIN_E then
        let d' := mkLcd (lcd_rs d) (lcd_rw d) v (lcd_db d) (lcd_hi d)
                        (lcd_mem d) in
        if lcd_e d && negb v then lcd_falling_edge d' else d'
      else if (HD_PIN_DAT0 <=? pin) && (pin <=? HD_PIN_DAT3) then
        mkLcd (lcd_rs d) (lcd_rw d) (lcd_e d)
              (set_nth_bool (lcd_db d) (Z.to_nat (pin - HD_PIN_DAT0)) v)
              (lcd_hi d) (lcd_mem d)
      else d
  end.

Definition lcd_run (d : lcd) (t : trace) : lcd := fold_left lcd_step t d.

(* between two bytes: E low, no nibble pending, four data lines wired *)
Definition lcd_idle (d : lcd) : Prop :=
  lcd_e d = false /\ lcd_hi d = None /\ length (lcd_db d) = 4%nat.

(* the module is between two bytes and its address counter is where the
   driver's cursor is *)
Definition lcd_synced (s : hd44780_state) (d : lcd) : Prop :=
  lcd_idle d /\ lcd_ac (lcd_mem d) = hd44780_calc_addr s.

(** ** Concrete states used as instances *)

(* a configured display once main_checks has filled in the data pins *)
Definition ready (lines cols : Z) : hd44780_state :=
  set_pins (configured lines cols) [4; 5; 6; 7; -1; -1; -1; -1; 0; 1; 2; 3].

Definition at_cursor (s : hd44780_state) (row col : Z) : hd44780_state :=
  set_hd_col (set_hd_row s row) col.

(** ** Line acquisition and [hd44780_prepare]

    The libgpiod calls that open the chip and acquire the lines depend on
    the system; each call's outcome is read from an environment, per pin
    role and line number.  A handle is stored at [hd_gpio.lines[pins[i]]],
    an array of [HD_PIN_COUNT] slots indexed by line number: for a line
    number outside the array the store lands in other memory and the
    behaviour of the program is undefined from there on.  A successful
    [gpiod_line_request_output(line, progname, 0)] makes the line an output
    at level 0; the lines so requested are kept beside the trace. *)

Definition EX_OK : Z := 0.
Definition EX_OSFILE : Z := 72.

Record gpio_env : Type := mkEnv {
  chip_opens : bool;               (* gpiod_chip_open_lookup != NULL *)
  line_gets : Z -> Z -> bool;      (* gpiod_chip_get_line != NULL *)
  line_requests : Z -> Z -> bool   (* gpiod_line_request_output == 0 *)
}.

(* for (i = 0; i < HD_PIN_COUNT; i++) *)
Definition pin_ids : list Z := [0; 1; 2; 3; 4; 5; 6; 7; 8; 9; 10; 11].

(* if (state->pins[i] == -1) continue; body *)
Definition for_assigned_pins (body : Z -> Z -> M unit) : M unit :=
  for_each pin_ids
    (fun i => s <- get ;;
              if pin_line (pins s) i =? -1 then ret tt
              else body i (pin_line (pins s) i)).

(* a valid index into hd_gpio.lines *)
Definition line_in_bounds (line : Z) : bool :=
  (0 <=? line) && (line <? HD_PIN_COUNT).

(* the first loop: lines[pins[i]] = gpiod_chip_get_line(chip, pins[i]),
   stored before it is compared with NULL *)
Inductive got : Type := GotOutOfBounds | GotExit | GotAll.

Fixpoint get_lines (env : gpio_env) (p : list Z) (l : list Z) : got :=
  match l with
  | [] => GotAll
  | i :: l' =>
      let line := pin_line p i in
      if line =? -1 then get_lines env p l'
      else if negb (line_in_bounds line) then GotOutOfBounds
      else if line_gets env i line then get_lines env p l'
      else GotExit
  end.

(* the second loop: gpiod_line_request_output(lines[pins[i]], progname, 0);
   the result lists the (pin, line) pairs requested with success, in
   order, and tells whether a request failed *)
Fixpoint request_lines (env : gpio_env) (p : list Z) (l : list Z)
  : list (Z * Z) * bool :=
  match l with
  | [] => ([], true)
  | i :: l' =>
      let line := pin_line p i in
      if line =? -1 then request_lines env p l'
      else if line_requests env i line then
        let (req, ok) := request_lines env p l' in ((i, line) :: req, ok)
      else ([], false)
  end.

(* the rest of hd44780_prepare, once the lines are acquired *)
Definition prepare_drive (fuel : nat) : M unit :=
  for_assigned_pins (fun i _ => hd44780_set_pin i false) ;;
  usleep 20000 ;;
  hd44780_command fuel CMD_RESET ;;
  s <- get ;;
  if hd_bl_on s =? 0 then ret tt else hd44780_set_pin HD_PIN_BL true.

(* what a run with line acquisition comes to: undefined behaviour, or the
   lines requested as outputs and the result of the rest *)
Inductive outcome (A : Type) : Type :=
| UndefinedBehaviour
| Runs (requested : list (Z * Z)) (r : result A).
Arguments UndefinedBehaviour {A}.
Arguments Runs {A} requested r.

Definition hd44780_prepare (env : gpio_env) (fuel : nat)
           (s : hd44780_state) : outcome unit :=
  if chip_opens env then
    match get_lines env (pins s) pin_ids with
    | GotOutOfBounds => UndefinedBehaviour
    | GotExit => Runs [] (Stop (ExitCode EX_OSFILE) [])
    | GotAll =>
        let (req, ok) := request_lines env (pins s) pin_ids in
        if ok then Runs req (prepare_drive fuel s)
        else Runs req (Stop (ExitCode 1) [])
    end
  else Runs [] (Stop (ExitCode EX_OSFILE) []).

(** ** [main] after option parsing

    The message strings are given as lists of character codes; with no
    argument left the characters come from standard input.  [atexit]
    registers [hd44780_finish], which closes the chip and drives no line. *)

(* for (i = 0; i < argc; i++) for (cp = argv[i]; *cp; cp++) do_char *)
Fixpoint feed_args (fuel : nat) (esc : Z) (args : list (list Z)) : M Z :=
  match args with
  | [] => ret esc
  | arg :: rest => esc' <- feed fuel esc arg ;; feed_args fuel esc' rest
  end.

Definition main_input (fuel : nat) (args : list (list Z)) (stdin : list Z)
  : M Z :=
  match args with
  | [] => feed fuel 0 stdin
  | _ :: _ => feed_args fuel 0 args
  end.

(* a result continued by a computation, and a result after a trace *)
Definition and_then {A B} (r : result A) (k : A -> M B) : result B :=
  match r with
  | Ok a s t =>
      match k a s with
      | Ok b s' t' => Ok b s' (t ++ t')
      | Stop w t' => Stop w (t ++ t')
      | OutOfFuel => OutOfFuel
      end
  | Stop w t => Stop w t
  | OutOfFuel => OutOfFuel
  end.

Definition after {A} (t0 : trace) (r : result A) : result A :=
  match r with
  | Ok a s t => Ok a s (t0 ++ t)
  | Stop w t => Stop w (t0 ++ t)
  | OutOfFuel => OutOfFuel
  end.

Definition main_run (env : gpio_env) (fuel : nat)
           (args : list (list Z)) (stdin : list Z) (s : hd44780_state)
  : outcome unit :=
  match main_checks s with
  | Ok _ s1 t0 =>
      match hd44780_prepare env fuel s1 with
      | UndefinedBehaviour => UndefinedBehaviour
      | Runs req r =>
          Runs req
            (after t0
               (and_then r
                  (fun _ => main_input fuel args stdin ;;
                            stop_with (ExitCode EX_OK))))
      end
  | Stop w t => Runs [] (Stop w t)
  | OutOfFuel => Runs [] OutOfFuel
  end.

(** ** What an operation is expected to do

    The state and the trace each operation ends with, in closed form, for
    an in-range cursor. *)

Definition tab_target (s : hd44780_state) : Z :=
  Z.min (hd_cols s) (hd_col s + (8 - hd_col s mod 8)).

Definition operation_state (s : hd44780_state) (op : operation)
  : hd44780_state :=
  match op with
  | OpPutc _ =>
      if hd_col s =? hd_cols s then s else set_hd_col s (hd_col s + 1)
  | OpCommand CMD_RESET | OpCommand CMD_CLR | OpCommand CMD_HOME =>
      cursor_home s
  | OpCommand CMD_BKSP =>
      if hd_col s >? 0 then set_hd_col s (hd_col s - 1) else s
  | OpCommand CMD_NL =>
      if hd_row s <? hd_lines s - 1
      then set_hd_col (set_hd_row s (hd_row s + 1)) 0
      else set_hd_col s (hd_cols s)
  | OpCommand CMD_CR => set_hd_col s 0
  | OpCommand CMD_TAB => set_hd_col s (tab_target s)
  | OpCommand CMD_FLASH => s
  end.

Definition operation_events (s : hd44780_state) (op : operation) : trace :=
  let p := pins s in
  match op with
  | OpPutc c => if hd_col s =? hd_cols s then [] else putc_events p c
  | OpCommand CMD_RESET => reset_init_events s ++ clear_events p
  | OpCommand CMD_CLR => clear_events p
  | OpCommand CMD_HOME => home_events p
  | OpCommand CMD_BKSP =>
      if hd_col s >? 0 then bksp_events p
      else flash_events s ++ [Usleep 1000]
  | OpCommand CMD_NL =>
      repeat_events (Z.to_nat (hd_cols s - hd_col s)) (putc_events p 32)
      ++ (if hd_row s <? hd_lines s - 1
          then set_addr_events p
                 (hd44780_calc_addr (operation_state s (OpCommand CMD_NL)))
          else [])
  | OpCommand CMD_CR =>
      set_addr_events p (hd44780_calc_addr (set_hd_col s 0))
  | OpCommand CMD_TAB =>
      repeat_events (Z.to_nat (tab_target s - hd_col s)) (putc_events p 32)
  | OpCommand CMD_FLASH => flash_events s
  end.

(* the operation a character stands for when no escape is pending *)
Definition char_operation (ch : Z) : option operation :=
  if ch =? 10 then Some (OpCommand CMD_NL)
  else if ch =? 13 then Some (OpCommand CMD_CR)
  else if ch =? 9 then Some (OpCommand CMD_TAB)
  else if ch =? 7 then Some (OpCommand CMD_FLASH)
  else if ch =? 8 then Some (OpCommand CMD_BKSP)
  else if ch =? 12 then Some (OpCommand CMD_CLR)
  else if isascii_print ch then Some (OpPutc ch)
  else None.

(* the value of the escape flag after a character *)
Definition next_esc (esc ch : Z) : Z :=
  if (esc =? 0) && (ch =? 27) then 1 else 0.

(* total programmed delay of a trace, in microseconds *)
Fixpoint trace_delay (t : trace) : Z :=
  match t with
  | [] => 0
  | Usleep n :: t' => n + trace_delay t'
  | GpioSet _ _ _ :: t' => trace_delay t'
  end.

(* the delays an operation is expected to add up to, in microseconds *)
Definition operation_delay (s : hd44780_state) (op : operation) : Z :=
  match op with
  | OpPutc _ => if hd_col s =? hd_cols s then 0 else 200
  | OpCommand CMD_RESET =>
      25000 + 3 * 80 + (if hd_ifwidth s =? 4 then 80 else 0) + 4 * 160 + 2160
  | OpCommand CMD_CLR | OpCommand CMD_HOME => 2160
  | OpCommand CMD_CR => 1160
  | OpCommand CMD_BKSP => if hd_col s >? 0 then 1520 else 801640
  | OpCommand CMD_FLASH => 800640
  | OpCommand CMD_NL =>
      200 * (hd_cols s - hd_col s)
      + (if hd_row s <? hd_lines s - 1 then 1160 else 0)
  | OpCommand CMD_TAB => 200 * (tab_target s - hd_col s)
  end.

(* the R/W line is only ever driven low and the backlight line not at all *)
Definition event_write_only (e : event) : bool :=
  match e with
  | GpioSet pin _ v =>
      negb (pin =? HD_PIN_BL) && (negb (pin =? HD_PIN_RW) || negb v)
  | Usleep _ => true
  end.

(* the events and trace of a result, whatever its outcome *)
Definition result_trace {A} (r : result A) : trace :=
  match r with
  | Ok _ _ t => t
  | Stop _ t => t
  | OutOfFuel => []
  end.

(* what main_checks leaves in the pins array: DAT1..DAT3 follow DAT0 *)
Definition derived_pins (p : list Z) : list Z :=
  let p1 := list_set p 1 (wrap_int (pin_line p HD_PIN_DAT0 + 1)) in
  let p2 := list_set p1 2 (wrap_int (pin_line p1 HD_PIN_DAT0 + 2)) in
  list_set p2 3 (wrap_int (pin_line p2 HD_PIN_DAT0 + 3)).

(* every gpiod call of hd44780_prepare on an assigned pin succeeds *)
Definition lines_acquired (ok : Z -> Z -> bool) (p : list Z) : bool :=
  forallb (fun i => (pin_line p i =? -1) || ok i (pin_line p i)) pin_ids.

Definition acquisition_ok (env : gpio_env) (p : list Z) : bool :=
  chip_opens env && lines_acquired (line_gets env) p
  && lines_acquired (line_requests env) p.


(* every assigned line number is an index into hd_gpio.lines *)
Definition lines_in_bounds (p : list Z) : bool :=
  forallb (fun i => (pin_line p i =? -1) || line_in_bounds (pin_line p i))
          pin_ids.

(* the assigned pins with their lines, in pin order *)
Definition assigned_lines (p : list Z) : list (Z * Z) :=
  flat_map (fun i => if pin_line p i =? -1 then [] else [(i, pin_line p i)])
           pin_ids.

(* the addresses an HD44780 has display RAM at: 0x00..0x4F when set up for
   one line, 0x00..0x27 and 0x40..0x67 when set up for two *)
Definition ddram_address (lines a : Z) : bool :=
  if lines =? 1 then (0 <=? a) && (a <=? 0x4F)
  else ((0 <=? a) && (a <=? 0x27)) || ((0x40 <=? a) && (a <=? 0x67)).

(* the lines hd44780_prepare drives low before the reset *)
Definition init_low_events (p : list Z) : trace :=
  flat_map (fun i => if pin_line p i =? -1 then [] else [set_ev p i false])
           pin_ids.

(* a module between two bytes, showing spaces, its cursor at [ac] *)
Definition lcd_blank (ac : Z) : lcd :=
  mkLcd false false false [false; false; false; false] None
        (mkCore ac (fun _ => 32)).

(** * Lemmas *)

(** ** Basic facts *)

Lemma wrap_int_id (z : Z) : int_range z -> wrap_int z = z.
Proof.
  unfold int_range, INT_MIN, INT_MAX, wrap_int. intros H.
  rewrite Z.mod_small; lia.
Qed.

Lemma wrap_u8_id (z : Z) : 0 <= z < 256 -> wrap_u8 z = z.
Proof. unfold wrap_u8. intros H. now apply Z.mod_small. Qed.

Lemma wrap_u8_wrap_int (z : Z) : wrap_u8 (wrap_int z) = wrap_u8 z.
Proof.
  unfold wrap_u8, wrap_int.
  assert (H : (z + 2 ^ 31) mod 2 ^ 32
              = z + 2 ^ 31 - 2 ^ 32 * ((z + 2 ^ 31) / 2 ^ 32)).
  { pose proof (Z.div_mod (z + 2 ^ 31) (2 ^ 32)). lia. }
  rewrite H.
  replace (z + 2 ^ 31 - 2 ^ 32 * ((z + 2 ^ 31) / 2 ^ 32) - 2 ^ 31)
    with (z + (- (2 ^ 24 * ((z + 2 ^ 31) / 2 ^ 32))) * 256) by lia.
  apply Z.mod_add. lia.
Qed.

Lemma bind_Ok {A B} (m : M A) (f : A -> M B) s a s1 t1 :
  m s = Ok a s1 t1 ->
  bind m f s = match f a s1 with
               | Ok b s2 t2 => Ok b s2 (t1 ++ t2)
               | Stop w t2 => Stop w (t1 ++ t2)
               | OutOfFuel => OutOfFuel
               end.
Proof. intros H. unfold bind. now rewrite H. Qed.

Lemma bind_Ok_Ok {A B} (m : M A) (f : A -> M B) s a s1 t1 b s2 t2 :
  m s = Ok a s1 t1 -> f a s1 = Ok b s2 t2 ->
  bind m f s = Ok b s2 (t1 ++ t2).
Proof. intros H1 H2. rewrite (bind_Ok _ _ _ _ _ _ H1). now rewrite H2. Qed.

Lemma pins_ok_line (p : list Z) (pin : Z) :
  pins_ok p = true ->
  In pin [HD_PIN_DAT0; HD_PIN_DAT1; HD_PIN_DAT2; HD_PIN_DAT3;
          HD_PIN_RS; HD_PIN_RW; HD_PIN_E] ->
  (pin_line p pin =? -1) = false.
Proof.
  unfold pins_ok. rewrite forallb_forall. intros H Hin.
  apply H in Hin. now apply negb_true_iff in Hin.
Qed.

Lemma set_pin_ok (pin : Z) (on : bool) (s : hd44780_state) :
  (pin_line (pins s) pin =? -1) = false ->
  hd44780_set_pin pin on s = Ok tt s [set_ev (pins s) pin on].
Proof.
  intros H. unfold hd44780_set_pin, bind, get. cbv beta iota zeta.
  rewrite H. reflexivity.
Qed.

Ltac run_pins :=
  repeat first
    [ rewrite set_pin_ok by (apply pins_ok_line; [assumption | cbn; auto 10])
    | progress (unfold ret, usleep, emit; cbv beta iota) ].

Lemma strobe_ok (s : hd44780_state) :
  pins_ok (pins s) = true ->
  hd44780_strobe s = Ok tt s (strobe_events (pins s)).
Proof.
  intros H. unfold hd44780_strobe, bind. run_pins. reflexivity.
Qed.

Lemma output4_ok (type : reg_type) (d : Z) (s : hd44780_state) :
  pins_ok (pins s) = true ->
  hd44780_output4 type d s = Ok tt s (output4_events (pins s) type d).
Proof.
  intros H. unfold hd44780_output4, for_each, bind.
  destruct type; run_pins; rewrite strobe_ok by assumption; reflexivity.
Qed.

Lemma output_ok (type : reg_type) (d : Z) (s : hd44780_state) :
  pins_ok (pins s) = true ->
  hd44780_output type d s = Ok tt s (output_events (pins s) type d).
Proof.
  intros H. unfold hd44780_output, for_each, bind.
  destruct type; run_pins; rewrite strobe_ok by assumption;
    run_pins; rewrite strobe_ok by assumption; reflexivity.
Qed.

(** ** Record updates *)

Lemma set_hd_col_same (s : hd44780_state) (v : Z) :
  v = hd_col s -> set_hd_col s v = s.
Proof. intros ->. destruct s; reflexivity. Qed.

Lemma set_hd_row_same (s : hd44780_state) (v : Z) :
  v = hd_row s -> set_hd_row s v = s.
Proof. intros ->. destruct s; reflexivity. Qed.

(** ** Character writes *)

Lemma putc_edge (c : Z) (s : hd44780_state) :
  hd_col s = hd_cols s -> hd44780_putc c s = Ok tt s [].
Proof.
  intros H. unfold hd44780_putc, bind, get.
  apply Z.eqb_eq in H. rewrite H. reflexivity.
Qed.

Lemma putc_write (c : Z) (s : hd44780_state) :
  pins_ok (pins s) = true -> hd_col s <> hd_cols s ->
  hd44780_putc c s
  = Ok tt (set_hd_col s (wrap_int (hd_col s + 1))) (putc_events (pins s) c).
Proof.
  intros Hp H. unfold hd44780_putc, bind, get.
  apply Z.eqb_neq in H. rewrite H.
  rewrite output_ok by assumption. reflexivity.
Qed.

(* the padding loop of CMD_NL *)
Lemma nl_pad_ok (n : nat) :
  forall (fuel : nat) (s : hd44780_state),
    pins_ok (pins s) = true ->
    int_range (hd_col s) -> int_range (hd_cols s) ->
    hd_cols s - hd_col s = Z.of_nat n -> (n <= fuel)%nat ->
    while fuel (fun s => hd_col s <? hd_cols s) (hd44780_putc 32) s
    = Ok tt (set_hd_col s (hd_cols s))
         (repeat_events n (putc_events (pins s) 32)).
Proof.
  induction n as [|n IH]; intros fuel s Hp Hc Hcs Hn Hf.
  - assert (E : (hd_col s <? hd_cols s) = false) by (apply Z.ltb_ge; lia).
    destruct fuel; cbn [while]; unfold bind, get; rewrite E; cbn;
      rewrite set_hd_col_same by lia; reflexivity.
  - assert (E : (hd_col s <? hd_cols s) = true) by (apply Z.ltb_lt; lia).
    destruct fuel as [|fuel]; [lia|].
    cbn [while]. unfold bind at 1. unfold get at 1. cbv beta iota.
    rewrite E.
    rewrite (bind_Ok _ _ _ _ _ _ (putc_write 32 s Hp ltac:(lia))).
    rewrite wrap_int_id by (unfold int_range, INT_MIN, INT_MAX in *; lia).
    rewrite IH; cbn [pins hd_col hd_cols set_hd_col];
      try assumption; try lia.
    + reflexivity.
    + unfold int_range, INT_MIN, INT_MAX in *; lia.
Qed.

(* the counted loop of CMD_TAB: putc clips at the right edge *)
Lemma countdown_putc_ok (n : nat) :
  forall (s : hd44780_state),
    pins_ok (pins s) = true ->
    int_range (hd_cols s) -> 0 <= hd_col s <= hd_cols s ->
    countdown n (hd44780_putc 32) s
    = Ok tt (set_hd_col s (Z.min (hd_cols s) (hd_col s + Z.of_nat n)))
         (repeat_events
            (Z.to_nat (Z.min (hd_cols s) (hd_col s + Z.of_nat n) - hd_col s))
            (putc_events (pins s) 32)).
Proof.
  induction n as [|n IH]; intros s Hp Hcs Hc.
  - cbn [countdown]. unfold ret.
    replace (Z.min (hd_cols s) (hd_col s + Z.of_nat 0)) with (hd_col s) by lia.
    rewrite set_hd_col_same by reflexivity.
    rewrite Z.sub_diag. reflexivity.
  - cbn [countdown].
    destruct (Z.eq_dec (hd_col s) (hd_cols s)) as [E|E].
    + rewrite (bind_Ok _ _ _ _ _ _ (putc_edge 32 s E)).
      rewrite IH by (try assumption; lia).
      replace (Z.min (hd_cols s) (hd_col s + Z.of_nat (S n)))
        with (hd_cols s) by lia.
      replace (Z.min (hd_cols s) (hd_col s + Z.of_nat n))
        with (hd_cols s) by lia.
      reflexivity.
    + rewrite (bind_Ok _ _ _ _ _ _ (putc_write 32 s Hp E)).
      rewrite wrap_int_id by (unfold int_range, INT_MIN, INT_MAX in *; lia).
      rewrite IH; cbn [pins hd_col hd_cols set_hd_col];
        try assumption; try lia.
      replace (hd_col s + 1 + Z.of_nat n) with (hd_col s + Z.of_nat (S n))
        by lia.
      set (m := Z.min (hd_cols s) (hd_col s + Z.of_nat (S n))).
      replace (Z.to_nat (m - hd_col s))
        with (S (Z.to_nat (m - (hd_col s + 1)))) by lia.
      reflexivity.
Qed.

(** ** Address computation *)

(* whatever the state, the result is the row formula reduced to a byte *)
Lemma calc_addr_mod256 (s : hd44780_state) :
  hd44780_calc_addr s
  = wrap_u8 (hd_col s
             + (if (hd_row s =? 1) || (hd_row s =? 3)
                then HD_LINE1_DRAM_OFFSET else 0)
             + (if (hd_row s =? 2) || (hd_row s =? 3)
                then hd_cols s else 0)).
Proof.
  unfold hd44780_calc_addr.
  destruct ((hd_row s =? 1) || (hd_row s =? 3));
    destruct ((hd_row s =? 2) || (hd_row s =? 3));
    rewrite ?wrap_u8_wrap_int; unfold wrap_u8;
    rewrite ?Z.add_0_r; try reflexivity.
  - rewrite Zplus_mod_idemp_l, <- Z.add_assoc, Zplus_mod_idemp_l, Z.add_assoc.
    reflexivity.
  - rewrite Zplus_mod_idemp_l. reflexivity.
  - rewrite Zplus_mod_idemp_l. reflexivity.
Qed.

Lemma lor_0x80 (a : Z) :
  0 <= a < 0x80 ->
  Z.lor HD_CMD_SET_ADDR a = 0x80 + a /\ Z.land (Z.lor HD_CMD_SET_ADDR a) 0x7f = a.
Proof.
  intros H. unfold HD_CMD_SET_ADDR.
  assert (Hn : a = Z.of_nat (Z.to_nat a)) by lia.
  assert (Hlt : (Z.to_nat a < 128)%nat) by lia.
  rewrite Hn. clear Hn H. generalize dependent (Z.to_nat a). intros n Hlt.
  do 128 (destruct n as [|n]; [split; reflexivity|]).
  lia.
Qed.

(** ** The bus protocol, as the module receives it *)

Lemma lcd_run_app (d : lcd) (t1 t2 : trace) :
  lcd_run d (t1 ++ t2) = lcd_run (lcd_run d t1) t2.
Proof. unfold lcd_run. apply fold_left_app. Qed.

Lemma lcd_run_select (p : list Z) (v : bool) (d : lcd) :
  lcd_run d [set_ev p HD_PIN_RW false; set_ev p HD_PIN_RS v]
  = mkLcd v false (lcd_e d) (lcd_db d) (lcd_hi d) (lcd_mem d).
Proof. reflexivity. Qed.

Lemma lcd_run_nibble (p : list Z) (shift data : Z) (d : lcd) :
  length (lcd_db d) = 4%nat ->
  lcd_run d (nibble_events p shift data)
  = mkLcd (lcd_rs d) (lcd_rw d) (lcd_e d)
          [bit_set (0 + shift) data; bit_set (1 + shift) data;
           bit_set (2 + shift) data; bit_set (3 + shift) data]
          (lcd_hi d) (lcd_mem d).
Proof.
  destruct d as [rs rw e db hi c]. cbn [lcd_db]. intros Hl.
  destruct db as [|b0 [|b1 [|b2 [|b3 [|b4 db]]]]]; try discriminate Hl.
  reflexivity.
Qed.

Lemma lcd_run_strobe (p : list Z) (d : lcd) :
  lcd_e d = false -> lcd_run d (strobe_events p) = lcd_falling_edge d.
Proof.
  destruct d as [rs rw e db hi c]. cbn [lcd_e]. intros ->. reflexivity.
Qed.

Lemma nibbles_of_byte (b : Z) :
  0 <= b < 256 ->
  16 * nibble_of [bit_set (0 + 4) b; bit_set (1 + 4) b;
                  bit_set (2 + 4) b; bit_set (3 + 4) b]
  + nibble_of [bit_set (0 + 0) b; bit_set (1 + 0) b;
               bit_set (2 + 0) b; bit_set (3 + 0) b] = b.
Proof.
  intros Hb.
  assert (H : forallb
                (fun n : nat =>
                   let b := Z.of_nat n in
                   16 * nibble_of [bit_set (0 + 4) b; bit_set (1 + 4) b;
                                   bit_set (2 + 4) b; bit_set (3 + 4) b]
                   + nibble_of [bit_set (0 + 0) b; bit_set (1 + 0) b;
                                bit_set (2 + 0) b; bit_set (3 + 0) b] =? b)
                (seq 0 256) = true) by (vm_compute; reflexivity).
  rewrite forallb_forall in H.
  specialize (H (Z.to_nat b)). cbv zeta in H.
  rewrite Z2Nat.id in H by lia.
  apply Z.eqb_eq, H, in_seq. lia.
Qed.

(* the two strobes of hd44780_output deliver exactly the byte *)
Lemma lcd_receives_byte (p : list Z) (type : reg_type) (byte : Z) (d : lcd) :
  0 <= byte < 256 -> lcd_idle d ->
  lcd_idle (lcd_run d (output_events p type byte))
  /\ lcd_mem (lcd_run d (output_events p type byte))
     = lcd_exec (is_data type) byte (lcd_mem d).
Proof.
  intros Hb (He & Hh & Hl).
  unfold output_events, output4_events.
  rewrite !lcd_run_app, lcd_run_select.
  rewrite (lcd_run_nibble p 4) by (cbn; assumption).
  cbn [lcd_rs lcd_rw lcd_e lcd_hi lcd_mem].
  match goal with
  | |- context [lcd_run ?x (strobe_events p)] =>
      match x with
      | mkLcd _ _ _ _ _ _ =>
          rewrite (lcd_run_strobe p x) by (cbn; assumption)
      end
  end.
  unfold lcd_falling_edge.
  cbn [lcd_rs lcd_rw lcd_e lcd_hi lcd_mem lcd_db].
  rewrite Hh.
  rewrite (lcd_run_nibble p 0) by reflexivity.
  cbn [lcd_rs lcd_rw lcd_e lcd_hi lcd_mem].
  rewrite lcd_run_strobe by (cbn; assumption).
  unfold lcd_falling_edge. cbn [lcd_rs lcd_rw lcd_e lcd_hi lcd_mem lcd_db].
  rewrite wrap_u8_id by assumption.
  rewrite nibbles_of_byte by assumption.
  unfold lcd_idle. cbn [lcd_e lcd_hi lcd_db lcd_mem length].
  repeat split; assumption.
Qed.

(** ** The commands, one by one *)

Ltac pins_side := cbn [pins set_hd_col set_hd_row]; assumption.

Ltac run :=
  repeat first
    [ rewrite output_ok by pins_side
    | rewrite output4_ok by pins_side
    | progress (unfold bind, get, modify, ret, usleep, emit;
                cbv beta iota zeta) ].

Lemma cmd_clr_ok (s : hd44780_state) :
  pins_ok (pins s) = true ->
  cmd_clr s = Ok tt (cursor_home s) (clear_events (pins s)).
Proof. intros Hp. unfold cmd_clr. run. reflexivity. Qed.

Lemma cmd_home_ok (fuel : nat) (s : hd44780_state) :
  pins_ok (pins s) = true ->
  hd44780_command fuel CMD_HOME s
  = Ok tt (cursor_home s) (home_events (pins s)).
Proof. intros Hp. unfold hd44780_command. run. reflexivity. Qed.

Lemma cmd_reset_init_ok (s : hd44780_state) :
  pins_ok (pins s) = true ->
  cmd_reset_init s = Ok tt s (reset_init_events s).
Proof.
  intros Hp. unfold cmd_reset_init, reset_init_events. run.
  fold (setmode_val s).
  destruct (hd_ifwidth s =? 4); run; reflexivity.
Qed.

Lemma cmd_reset_ok (fuel : nat) (s : hd44780_state) :
  pins_ok (pins s) = true ->
  hd44780_command fuel CMD_RESET s
  = Ok tt (cursor_home s) (reset_init_events s ++ clear_events (pins s)).
Proof.
  intros Hp. cbn [hd44780_command].
  apply bind_Ok_Ok with (a := tt) (s1 := s).
  - now apply cmd_reset_init_ok.
  - now apply cmd_clr_ok.
Qed.

Lemma cmd_flash_ok (s : hd44780_state) :
  pins_ok (pins s) = true ->
  cmd_flash s = Ok tt s (flash_events s).
Proof.
  intros Hp. unfold cmd_flash, for_each. run.
  change (0 <? 3) with true. change (1 <? 3) with true. run.
  unfold flash_events, flash_once_events.
  rewrite <- !app_assoc. reflexivity.
Qed.

Lemma cmd_cr_ok (fuel : nat) (s : hd44780_state) :
  pins_ok (pins s) = true ->
  hd44780_command fuel CMD_CR s
  = Ok tt (set_hd_col s 0)
       (set_addr_events (pins s) (hd44780_calc_addr (set_hd_col s 0))).
Proof. intros Hp. unfold hd44780_command. run. reflexivity. Qed.

Lemma cmd_bksp_left_ok (fuel : nat) (s : hd44780_state) :
  pins_ok (pins s) = true -> int_range (hd_col s) ->
  0 < hd_col s <= hd_cols s ->
  hd44780_command fuel CMD_BKSP s
  = Ok tt (set_hd_col s (hd_col s - 1)) (bksp_events (pins s)).
Proof.
  intros Hp Hi Hc. unfold hd44780_command.
  unfold bind at 1 2. unfold get at 1. cbv beta iota.
  assert (E : (hd_col s >? 0) = true) by (apply Z.gtb_lt; lia).
  rewrite E.
  assert (W : wrap_int (hd_col s - 1) = hd_col s - 1).
  { apply wrap_int_id. unfold int_range, INT_MIN, INT_MAX in *. lia. }
  unfold bind at 1. rewrite output_ok by assumption.
  unfold bind at 1. unfold modify at 1. cbv beta iota. rewrite W.
  unfold bind at 1.
  rewrite putc_write
    by (cbn [pins hd_col hd_cols set_hd_col]; try assumption; lia).
  cbn [pins hd_col hd_cols set_hd_col].
  replace (hd_col s - 1 + 1) with (hd_col s) by lia.
  rewrite (wrap_int_id (hd_col s)) by assumption.
  run. cbn [hd_col set_hd_col]. rewrite W.
  unfold bksp_events, move_left. rewrite <- !app_assoc. reflexivity.
Qed.

Lemma cmd_bksp_flash_ok (fuel : nat) (s : hd44780_state) :
  pins_ok (pins s) = true -> hd_col s <= 0 ->
  hd44780_command fuel CMD_BKSP s
  = Ok tt s (flash_events s ++ [Usleep 1000]).
Proof.
  intros Hp Hc. unfold hd44780_command.
  unfold bind at 1 2. unfold get at 1. cbv beta iota.
  assert (E : (hd_col s >? 0) = false).
  { destruct (hd_col s >? 0) eqn:G; [apply Z.gtb_lt in G; lia | reflexivity]. }
  rewrite E, cmd_flash_ok by assumption. reflexivity.
Qed.

Lemma cmd_nl_ok (fuel : nat) (s : hd44780_state) :
  pins_ok (pins s) = true -> state_int s -> INT_MIN < hd_lines s ->
  hd_col s <= hd_cols s ->
  (Z.to_nat (hd_cols s - hd_col s) <= fuel)%nat ->
  let pad := repeat_events (Z.to_nat (hd_cols s - hd_col s))
                           (putc_events (pins s) 32) in
  let s' := set_hd_col (set_hd_row s (hd_row s + 1)) 0 in
  hd44780_command fuel CMD_NL s
  = if hd_row s <? hd_lines s - 1
    then Ok tt s' (pad ++ set_addr_events (pins s) (hd44780_calc_addr s'))
    else Ok tt (set_hd_col s (hd_cols s)) pad.
Proof.
  intros Hp (Hl & Hcs & Hc & Hr) Hmin Hle Hf pad s'.
  unfold hd44780_command.
  rewrite (bind_Ok _ _ _ _ _ _
             (nl_pad_ok (Z.to_nat (hd_cols s - hd_col s)) fuel s
                        Hp Hc Hcs ltac:(lia) Hf)).
  fold pad.
  unfold bind at 1. unfold get at 1. cbv beta iota.
  cbn [hd_row hd_lines set_hd_col].
  rewrite (wrap_int_id (hd_lines s - 1))
    by (unfold int_range, INT_MIN, INT_MAX in *; lia).
  destruct (hd_row s <? hd_lines s - 1) eqn:E.
  - apply Z.ltb_lt in E.
    run. cbn [hd_row set_hd_col set_hd_row].
    rewrite (wrap_int_id (hd_row s + 1))
      by (unfold int_range, INT_MIN, INT_MAX in *; lia).
    reflexivity.
  - unfold ret. rewrite app_nil_r. reflexivity.
Qed.

Lemma tab_distance (c : Z) : 0 <= c -> 1 <= 8 - Z.rem c 8 <= 8.
Proof.
  intros H. pose proof (Z.rem_bound_pos c 8 H ltac:(lia)). lia.
Qed.

Lemma cmd_tab_ok (fuel : nat) (s : hd44780_state) :
  pins_ok (pins s) = true -> int_range (hd_cols s) ->
  0 <= hd_col s <= hd_cols s ->
  let c' := Z.min (hd_cols s) (hd_col s + (8 - hd_col s mod 8)) in
  hd44780_command fuel CMD_TAB s
  = Ok tt (set_hd_col s c')
       (repeat_events (Z.to_nat (c' - hd_col s)) (putc_events (pins s) 32)).
Proof.
  intros Hp Hcs Hc c'. unfold hd44780_command.
  unfold bind, get. cbv beta iota zeta.
  pose proof (tab_distance (hd_col s) ltac:(lia)) as Hd.
  assert (Hrem : Z.rem (hd_col s) 8 = hd_col s mod 8)
    by (apply Z.rem_mod_nonneg; lia).
  set (i := 8 - Z.rem (hd_col s) 8) in *.
  assert (Hi : wrap_int i = i).
  { apply wrap_int_id. unfold int_range, INT_MIN, INT_MAX. lia. }
  rewrite Hi.
  assert (Hc' : c' = Z.min (hd_cols s) (hd_col s + i)).
  { unfold c', i. now rewrite Hrem. }
  destruct (wrap_int (hd_col s + i) >? hd_cols s) eqn:E.
  - (* clamped: i = hd_cols - hd_col *)
    assert (Hge : hd_cols s <= hd_col s + i).
    { apply Z.gtb_lt in E. unfold wrap_int in E.
      unfold int_range, INT_MIN, INT_MAX in Hcs.
      destruct (Z_lt_le_dec (hd_col s + i) (2 ^ 31)) as [L|L]; [|lia].
      rewrite Z.mod_small in E by lia. lia. }
    rewrite (wrap_int_id (hd_cols s - hd_col s))
      by (unfold int_range, INT_MIN, INT_MAX in *; lia).
    rewrite countdown_putc_ok by assumption.
    rewrite Z2Nat.id by lia.
    replace (hd_col s + (hd_cols s - hd_col s)) with (hd_cols s) by lia.
    rewrite Z.min_id.
    replace c' with (hd_cols s) by lia.
    reflexivity.
  - rewrite countdown_putc_ok by assumption.
    rewrite Z2Nat.id by lia. rewrite <- Hc'. reflexivity.
Qed.

(** ** Where the address lies for a valid geometry *)

Lemma calc_addr_exact (s : hd44780_state) :
  geometry_ok (hd_lines s) (hd_cols s) -> cursor_inv s ->
  hd44780_calc_addr s = hd_col s + row_offset s
  /\ 0 <= row_offset s /\ hd_col s + row_offset s < 0x80.
Proof.
  intros (Hl & Hc & Hp) ((Hr0 & Hr1) & Hc0 & Hc1).
  rewrite calc_addr_mod256. unfold row_offset, HD_LINE1_DRAM_OFFSET.
  assert (Hb : 0 <= hd_col s
               + (if (hd_row s =? 1) || (hd_row s =? 3) then 0x40 else 0)
               + (if (hd_row s =? 2) || (hd_row s =? 3) then hd_cols s else 0)
               < 0x80).
  { destruct Hl as [L | [L | L]]; rewrite L in *;
      assert (R : hd_row s = 0 \/ hd_row s = 1 \/ hd_row s = 2 \/ hd_row s = 3)
        by lia;
      destruct R as [R | [R | [R | R]]]; rewrite R in *; cbn; lia. }
  rewrite wrap_u8_id by lia.
  repeat split; try lia.
  destruct ((hd_row s =? 1) || (hd_row s =? 3));
    destruct ((hd_row s =? 2) || (hd_row s =? 3)); lia.
Qed.

(** ** The geometry check of [main] *)

Lemma geometry_check_in_range (lines cols : Z) :
  int_range (lines * cols) ->
  (lines_unsupported lines || cols_unsupported lines cols = false
   <-> geometry_ok lines cols).
Proof.
  intros Hr. unfold lines_unsupported, cols_unsupported, geometry_ok.
  rewrite (wrap_int_id _ Hr).
  rewrite orb_false_iff, orb_false_iff, !andb_false_iff, !negb_false_iff.
  rewrite !Z.eqb_eq, Z.leb_gt.
  split.
  - intros (Hl & Hc & Hp). repeat split; lia.
  - intros (Hl & Hc & Hp). repeat split; lia.
Qed.

Lemma main_checks_default_pins (lines cols : Z) :
  main_checks (configured lines cols)
  = if lines_unsupported lines || cols_unsupported lines cols
    then Stop (ExitCode EX_USAGE) []
    else Ok tt (set_pins (configured lines cols)
                         [4; 5; 6; 7; -1; -1; -1; -1; 0; 1; 2; 3]) [].
Proof.
  unfold main_checks, bind, get. cbn [hd_ifwidth hd_lines hd_cols configured].
  cbn [Z.eqb Pos.eqb negb for_each].
  destruct (lines_unsupported lines); [reflexivity|].
  destruct (cols_unsupported lines cols); reflexivity.
Qed.

Lemma main_checks_reject (s : hd44780_state) :
  hd_ifwidth s = 4 ->
  lines_unsupported (hd_lines s) || cols_unsupported (hd_lines s) (hd_cols s)
  = true ->
  main_checks s = Stop (ExitCode EX_USAGE) [].
Proof.
  intros Hw Hg. unfold main_checks, bind, get. cbv beta iota.
  rewrite Hw. cbn [Z.eqb Pos.eqb negb for_each].
  unfold ret, modify. cbv beta iota.
  destruct (lines_unsupported (hd_lines s)); [reflexivity|].
  cbn [orb] in Hg. rewrite Hg. reflexivity.
Qed.

(** ** What the module shows after a backspace *)

Lemma lcd_run_usleep (d : lcd) (n : Z) : lcd_run d [Usleep n] = d.
Proof. reflexivity. Qed.

Lemma lcd_bksp (p : list Z) (d : lcd) :
  lcd_idle d ->
  let left := (lcd_ac (lcd_mem d) - 1) mod 128 in
  let d' := lcd_run d (bksp_events p) in
  lcd_idle d'
  /\ lcd_ac (lcd_mem d') = left
  /\ lcd_ddram (lcd_mem d') = ddram_write (lcd_ddram (lcd_mem d)) left 32.
Proof.
  intros Hd left d'. unfold d', bksp_events, putc_events.
  rewrite !lcd_run_app, !lcd_run_usleep.
  assert (Hm : 0 <= move_left < 256) by (vm_compute; split; congruence).
  destruct (lcd_receives_byte p HD_COMMAND move_left d Hm Hd) as (I1 & M1).
  set (d1 := lcd_run d (output_events p HD_COMMAND move_left)) in *.
  destruct (lcd_receives_byte p HD_DATA 32 d1 ltac:(lia) I1) as (I2 & M2).
  set (d2 := lcd_run d1 (output_events p HD_DATA 32)) in *.
  destruct (lcd_receives_byte p HD_COMMAND move_left d2 Hm I2) as (I3 & M3).
  set (d3 := lcd_run d2 (output_events p HD_COMMAND move_left)) in *.
  split; [assumption|].
  rewrite M3, M2, M1.
  change (lcd_exec (is_data HD_COMMAND) move_left (lcd_mem d))
    with (mkCore left (lcd_ddram (lcd_mem d))).
  change (lcd_exec (is_data HD_DATA) 32 (mkCore left (lcd_ddram (lcd_mem d))))
    with (mkCore ((left + 1) mod 128)
                 (ddram_write (lcd_ddram (lcd_mem d)) left 32)).
  cbn [lcd_exec is_data lcd_ac lcd_ddram].
  change (0x80 <=? move_left) with false.
  change (0x20 <=? move_left) with false.
  change (0x10 <=? move_left) with true.
  change (Z.testbit move_left 3) with false.
  change (Z.testbit move_left 2) with false.
  cbn [lcd_ac lcd_ddram]. split; [|reflexivity].
  rewrite Zminus_mod_idemp_l.
  replace (left + 1 - 1) with left by lia.
  unfold left. apply Z.mod_mod. lia.
Qed.

Ltac int_side := unfold state_int, int_range, INT_MIN, INT_MAX; cbn; lia.

(** ** Checks on concrete inputs *)

(* the cursor after an operation, when it returns *)
Definition cursor_after {A} (r : result A) : option (Z * Z) :=
  match r with
  | Ok _ s _ => Some (hd_row s, hd_col s)
  | _ => None
  end.

(* "AB\nCD" on a 2x16 display, from (0,0): the cursor ends at (1,2) *)
Example feed_AB_nl_CD :
  cursor_after (feed 16 0 [65; 66; 10; 67; 68] (ready 2 16)) = Some (1, 2).
Proof. vm_compute. reflexivity. Qed.

(* ESC R from anywhere: cursor (0,0), escape no longer pending *)
Example feed_esc_R :
  match feed 0 0 [27; 82] (at_cursor (ready 2 16) 1 7) with
  | Ok esc s _ => (esc, hd_row s, hd_col s) = (0, 0, 0)
  | _ => False
  end.
Proof. vm_compute. reflexivity. Qed.

(* a missing RS pin makes the first output abort on the assertion *)
Example clear_without_rs_pin :
  hd44780_command 0 CMD_CLR
    (set_pins (ready 2 16) [4; 5; 6; 7; -1; -1; -1; -1; -1; 1; 2; 3])
  = Stop AssertFailed [GpioSet HD_PIN_RW 1 false].
Proof. reflexivity. Qed.

(* the padding loop needs as many iterations as cells are left *)
Example nl_out_of_fuel :
  hd44780_command 3 CMD_NL (at_cursor (ready 2 16) 0 2) = OutOfFuel.
Proof. vm_compute. reflexivity. Qed.

(* a column outside any display makes the byte-wide address wrap *)
Example calc_addr_wraps :
  hd44780_calc_addr (at_cursor (ready 1 80) 0 256) = 0.
Proof. reflexivity. Qed.

(** * The properties *)

(** C1, as amended. For a cursor on row 0, 1, 2 or 3 and any column c,
    [hd44780_calc_addr] returns, reduced modulo 256 because it returns a
    [uint8_t]: c on row 0, [0x40 + c] on row 1, the column count plus c on
    row 2, and [0x40] plus the column count plus c on row 3.  The
    reduction changes nothing when 0 <= c <= columns <= 80. *)
Theorem calc_addr_rows_wrapped (s : hd44780_state) :
  ((hd_row s = 0 -> hd44780_calc_addr s = wrap_u8 (hd_col s))
   /\ (hd_row s = 1 -> hd44780_calc_addr s = wrap_u8 (0x40 + hd_col s))
   /\ (hd_row s = 2 ->
       hd44780_calc_addr s = wrap_u8 (hd_cols s + hd_col s))
   /\ (hd_row s = 3 ->
       hd44780_calc_addr s = wrap_u8 (0x40 + hd_cols s + hd_col s)))
  /\ (0 <= hd_col s <= hd_cols s -> hd_cols s <= 80 ->
      (hd_row s = 0 -> hd44780_calc_addr s = hd_col s)
      /\ (hd_row s = 1 -> hd44780_calc_addr s = 0x40 + hd_col s)
      /\ (hd_row s = 2 -> hd44780_calc_addr s = hd_cols s + hd_col s)
      /\ (hd_row s = 3 ->
          hd44780_calc_addr s = 0x40 + hd_cols s + hd_col s)).
Proof.
  rewrite calc_addr_mod256. unfold HD_LINE1_DRAM_OFFSET. split.
  - repeat split; intros ->; cbn [Z.eqb Pos.eqb orb]; f_equal; lia.
  - intros Hc Hcs.
    repeat split; intros ->; cbn [Z.eqb Pos.eqb orb];
      rewrite wrap_u8_id; lia.
Qed.

Lemma calc_addr_rows_wrapped_witness :
  hd44780_calc_addr (at_cursor (ready 4 20) 3 7) = wrap_u8 (0x40 + 20 + 7)
  /\ hd44780_calc_addr (at_cursor (ready 4 20) 3 7) = 0x40 + 20 + 7.
Proof.
  split.
  - apply (proj1 (calc_addr_rows_wrapped (at_cursor (ready 4 20) 3 7))).
    reflexivity.
  - refine (proj2 (proj2 (proj2
             (proj2 (calc_addr_rows_wrapped (at_cursor (ready 4 20) 3 7))
                    _ _))) _).
    + cbn. lia.
    + cbn. lia.
    + reflexivity.
Defined.

(* the claim without the reduction fails: column 256 on row 0 of a 2x16
   display gives 0, and on the geometry 4 x 1073741824, which the checks
   of main let through, row 2 column 0 gives 0 and not the column count *)
Lemma calc_addr_rows_counterexample :
  (hd_row (at_cursor (ready 2 16) 0 256) = 0
   /\ hd44780_calc_addr (at_cursor (ready 2 16) 0 256)
      <> hd_col (at_cursor (ready 2 16) 0 256))
  /\ (hd_row (at_cursor (ready 4 1073741824) 2 0) = 2
      /\ hd44780_calc_addr (at_cursor (ready 4 1073741824) 2 0)
         <> hd_cols (at_cursor (ready 4 1073741824) 2 0)
            + hd_col (at_cursor (ready 4 1073741824) 2 0)).
Proof.
  split; (split; [reflexivity | vm_compute; discriminate]).
Qed.

(** C2. From any state, CLEAR and HOME complete with the cursor at row 0,
    column 0; RESET runs its initialisation sequence and then exactly the
    CLEAR command, so it ends in the same state as CLEAR, cursor (0,0). *)
Theorem clear_home_reset_cursor (fuel : nat) (s : hd44780_state) :
  pins_ok (pins s) = true ->
  hd44780_command fuel CMD_CLR s
  = Ok tt (cursor_home s) (clear_events (pins s))
  /\ hd44780_command fuel CMD_HOME s
     = Ok tt (cursor_home s) (home_events (pins s))
  /\ hd44780_command fuel CMD_RESET s
     = Ok tt (cursor_home s) (reset_init_events s ++ clear_events (pins s))
  /\ hd_row (cursor_home s) = 0 /\ hd_col (cursor_home s) = 0.
Proof.
  intros Hp. repeat split.
  - now apply cmd_clr_ok.
  - now apply cmd_home_ok.
  - now apply cmd_reset_ok.
Qed.

Lemma clear_home_reset_cursor_witness :
  hd44780_command 0 CMD_RESET (at_cursor (ready 2 16) 1 9)
  = Ok tt (ready 2 16)
       (reset_init_events (ready 2 16) ++ clear_events (pins (ready 2 16))).
Proof.
  exact (proj1 (proj2 (proj2
    (clear_home_reset_cursor 0 (at_cursor (ready 2 16) 1 9) eq_refl)))).
Defined.

(** C3. NL with the column within the width: above the last row it writes
    spaces up to the configured width, then moves to column 0 of the next
    row and sends the set-address command for that position; on the last
    row it only pads, the cursor stays at (lines-1, columns), and every
    character write there does nothing. *)
Theorem nl_pads_then_advances (fuel : nat) (s : hd44780_state) :
  pins_ok (pins s) = true -> state_int s -> hd_col s <= hd_cols s ->
  (Z.to_nat (hd_cols s - hd_col s) <= fuel)%nat ->
  let pad := repeat_events (Z.to_nat (hd_cols s - hd_col s))
                           (putc_events (pins s) 32) in
  (hd_row s < hd_lines s - 1 ->
     let s' := set_hd_col (set_hd_row s (hd_row s + 1)) 0 in
     hd44780_command fuel CMD_NL s
     = Ok tt s' (pad ++ set_addr_events (pins s) (hd44780_calc_addr s')))
  /\ (hd_row s = hd_lines s - 1 ->
        let s' := set_hd_col s (hd_cols s) in
        hd44780_command fuel CMD_NL s = Ok tt s' pad
        /\ hd_row s' = hd_lines s - 1 /\ hd_col s' = hd_cols s
        /\ forall c, hd44780_putc c s' = Ok tt s' []).
Proof.
  intros Hp Hi Hc Hf pad.
  pose proof Hi as (Hl & _ & _ & Hr).
  unfold int_range, INT_MIN, INT_MAX in Hl, Hr.
  split.
  - intros Hrow s'.
    rewrite cmd_nl_ok by (try assumption; unfold INT_MIN; lia).
    assert (E : (hd_row s <? hd_lines s - 1) = true) by (apply Z.ltb_lt; lia).
    cbv zeta. rewrite E. reflexivity.
  - intros Hrow s'.
    rewrite cmd_nl_ok by (try assumption; unfold INT_MIN; lia).
    assert (E : (hd_row s <? hd_lines s - 1) = false) by (apply Z.ltb_ge; lia).
    cbv zeta. rewrite E.
    repeat split; try assumption.
    intros c. apply putc_edge. reflexivity.
Qed.

Lemma nl_pads_then_advances_witness :
  hd44780_command 14 CMD_NL (at_cursor (ready 2 16) 0 2)
  = Ok tt (at_cursor (ready 2 16) 1 0)
       (repeat_events 14 (putc_events (pins (ready 2 16)) 32)
        ++ set_addr_events (pins (ready 2 16)) 0x40).
Proof.
  refine (proj1 (nl_pads_then_advances 14 (at_cursor (ready 2 16) 0 2)
                   eq_refl _ _ _) _).
  - int_side.
  - cbn. lia.
  - cbn. lia.
  - cbn. lia.
Defined.

(** C4. TAB from a column c with 0 <= c <= columns writes spaces until the
    column is min(columns, c + (8 - c mod 8)); the row does not change. *)
Theorem tab_column (fuel : nat) (s : hd44780_state) :
  pins_ok (pins s) = true -> int_range (hd_cols s) ->
  0 <= hd_col s <= hd_cols s ->
  let c' := Z.min (hd_cols s) (hd_col s + (8 - hd_col s mod 8)) in
  hd44780_command fuel CMD_TAB s
  = Ok tt (set_hd_col s c')
       (repeat_events (Z.to_nat (c' - hd_col s)) (putc_events (pins s) 32))
  /\ hd_col (set_hd_col s c') = c'
  /\ hd_row (set_hd_col s c') = hd_row s.
Proof.
  intros Hp Hcs Hc c'. split; [|split; reflexivity].
  now apply cmd_tab_ok.
Qed.

Lemma tab_column_witness :
  hd44780_command 0 CMD_TAB (at_cursor (ready 2 16) 0 11)
  = Ok tt (at_cursor (ready 2 16) 0 16)
       (repeat_events 5 (putc_events (pins (ready 2 16)) 32)).
Proof.
  refine (proj1 (tab_column 0 (at_cursor (ready 2 16) 0 11) eq_refl _ _)).
  - int_side.
  - cbn. lia.
Defined.

(** C5. BKSP with the column above 0 (and within the width) leaves the
    column one lower; the lines it drives make the module step its cursor
    left, store a space there and step left again, so the cell of the prior
    column holds a space and nothing else changes.  BKSP at column 0 drives
    the lines exactly as FLASH does (followed by one more delay) and leaves
    the state, column 0 included, as it was. *)
Theorem bksp_behaviour (fuel : nat) (s : hd44780_state) :
  pins_ok (pins s) = true -> int_range (hd_col s) -> hd_col s <= hd_cols s ->
  (0 < hd_col s ->
     hd44780_command fuel CMD_BKSP s
     = Ok tt (set_hd_col s (hd_col s - 1)) (bksp_events (pins s))
     /\ forall d : lcd,
         lcd_idle d ->
         let left := (lcd_ac (lcd_mem d) - 1) mod 128 in
         let d' := lcd_run d (bksp_events (pins s)) in
         lcd_ac (lcd_mem d') = left
         /\ lcd_ddram (lcd_mem d') left = 32
         /\ (forall a, a <> left ->
                       lcd_ddram (lcd_mem d') a = lcd_ddram (lcd_mem d) a)
         /\ (geometry_ok (hd_lines s) (hd_cols s) -> cursor_inv s ->
             lcd_ac (lcd_mem d) = hd44780_calc_addr s ->
             left = hd44780_calc_addr (set_hd_col s (hd_col s - 1))))
  /\ (hd_col s = 0 ->
        hd44780_command fuel CMD_FLASH s = Ok tt s (flash_events s)
        /\ hd44780_command fuel CMD_BKSP s
           = Ok tt s (flash_events s ++ [Usleep 1000])
        /\ line_toggles (flash_events s ++ [Usleep 1000])
           = line_toggles (flash_events s)).
Proof.
  intros Hp Hi Hc. split.
  - intros Hpos. split.
    + apply cmd_bksp_left_ok; try assumption. lia.
    + intros d Hd left d'.
      destruct (lcd_bksp (pins s) d Hd) as (_ & Hac & Hram).
      fold left in Hac, Hram. fold d' in Hac, Hram.
      rewrite Hac, Hram. unfold ddram_write.
      split; [reflexivity|]. split; [now rewrite Z.eqb_refl|].
      split.
      * intros a Ha. apply Z.eqb_neq in Ha. now rewrite Ha.
      * intros Hg Hinv Hsync.
        destruct (calc_addr_exact s Hg Hinv) as (E & Ho & Hlt).
        assert (Hinv' : cursor_inv (set_hd_col s (hd_col s - 1))).
        { destruct Hinv as (Hr & Hcc). split; cbn; [assumption | lia]. }
        destruct (calc_addr_exact (set_hd_col s (hd_col s - 1)) Hg Hinv')
          as (E' & _ & _).
        rewrite E'. unfold left. rewrite Hsync, E.
        change (row_offset (set_hd_col s (hd_col s - 1))) with (row_offset s).
        cbn [hd_col set_hd_col].
        rewrite Z.mod_small; lia.
  - intros H0. split; [|split].
    + apply cmd_flash_ok. assumption.
    + apply cmd_bksp_flash_ok; [assumption | lia].
    + unfold line_toggles. rewrite filter_app. cbn [filter].
      apply app_nil_r.
Qed.

Lemma bksp_behaviour_witness :
  hd44780_command 0 CMD_BKSP (at_cursor (ready 2 16) 1 3)
  = Ok tt (at_cursor (ready 2 16) 1 2) (bksp_events (pins (ready 2 16))).
Proof.
  refine (proj1 (proj1 (bksp_behaviour 0 (at_cursor (ready 2 16) 1 3)
                          eq_refl _ _) _)).
  - int_side.
  - cbn. lia.
  - cbn. lia.
Defined.

(** C6. [putc] with the column equal to the configured column count does
    nothing, whatever the character: it returns with the state (cursor
    included) unchanged and an empty trace, so no line is driven, no data
    byte reaches the module and the module's memory stays as it is. *)
Theorem putc_at_edge_noop (c : Z) (s : hd44780_state) :
  hd_col s = hd_cols s ->
  exists t : trace,
    hd44780_putc c s = Ok tt s t /\ t = []
    /\ forall d : lcd, lcd_run d t = d.
Proof.
  intros H. exists []. split; [|split].
  - now apply putc_edge.
  - reflexivity.
  - intros d. reflexivity.
Qed.

Lemma putc_at_edge_noop_witness :
  exists t : trace,
    hd44780_putc 65 (at_cursor (ready 2 16) 0 16)
    = Ok tt (at_cursor (ready 2 16) 0 16) t
    /\ t = [] /\ forall d : lcd, lcd_run d t = d.
Proof.
  apply (putc_at_edge_noop 65 (at_cursor (ready 2 16) 0 16)). reflexivity.
Defined.

(** C7. With escape pending, [do_char] on 'R' runs the RESET command, on
    'H' the HOME command, on any other character nothing at all, and in the
    three cases it leaves escape-pending cleared; with escape not pending,
    the escape character 27 sets escape-pending and emits nothing. *)
Theorem do_char_escape (fuel : nat) (esc ch : Z) (s : hd44780_state) :
  (esc <> 0 ->
     do_char fuel esc 82 s = with_value 0 (hd44780_command fuel CMD_RESET s)
     /\ do_char fuel esc 72 s
        = with_value 0 (hd44780_command fuel CMD_HOME s)
     /\ (ch <> 82 -> ch <> 72 -> do_char fuel esc ch s = Ok 0 s []))
  /\ do_char fuel 0 27 s = Ok 1 s [].
Proof.
  split; [|reflexivity].
  intros He. apply Z.eqb_neq in He.
  unfold do_char. rewrite He. cbn [negb Z.eqb Pos.eqb].
  repeat split.
  - unfold bind, ret.
    destruct (hd44780_command fuel CMD_RESET s); cbn [with_value];
      rewrite ?app_nil_r; reflexivity.
  - unfold bind, ret.
    destruct (hd44780_command fuel CMD_HOME s); cbn [with_value];
      rewrite ?app_nil_r; reflexivity.
  - intros HR HH. apply Z.eqb_neq in HR, HH. rewrite HR, HH. reflexivity.
Qed.

Lemma do_char_escape_witness :
  do_char 0 1 82 (at_cursor (ready 2 16) 1 5)
  = Ok 0 (ready 2 16)
       (reset_init_events (ready 2 16) ++ clear_events (pins (ready 2 16)))
  /\ do_char 0 1 120 (ready 2 16) = Ok 0 (ready 2 16) [].
Proof.
  split.
  - refine (eq_trans
              (proj1 (proj1 (do_char_escape 0 1 120
                               (at_cursor (ready 2 16) 1 5)) _)) _).
    + discriminate.
    + rewrite cmd_reset_ok by reflexivity. reflexivity.
  - refine (proj2 (proj2 (proj1 (do_char_escape 0 1 120 (ready 2 16)) _))
              _ _); discriminate.
Defined.

(** C8. The geometry check of [main] does not reject every pair outside
    lines in {1,2,4}, columns > 0, lines * columns <= 80: the product is
    taken in [int], and for [-h 4 -w 1073741824] it wraps to 0, so the
    check passes and [main] goes on to [hd44780_prepare], although
    4 * 1073741824 exceeds 80.  (Whenever the product fits an [int] the
    check agrees with the stated condition, see
    [geometry_check_in_range].) *)
Theorem geometry_check_overflow :
  main_checks (configured 4 1073741824)
  = Ok tt (ready 4 1073741824) []
  /\ cols_unsupported 4 1073741824 = false
  /\ ~ geometry_ok 4 1073741824.
Proof.
  split; [|split].
  - rewrite main_checks_default_pins. reflexivity.
  - reflexivity.
  - unfold geometry_ok. lia.
Qed.

(** C9. Every operation of the display state machine keeps the cursor in
    range: started with 0 <= row < lines and 0 <= column <= columns, each
    of RESET, CLEAR, HOME, CR, NL, TAB, BKSP, FLASH and putc returns, in a
    state with the same configuration where both bounds hold again. *)
Theorem cursor_invariant_preserved
        (fuel : nat) (op : operation) (s : hd44780_state) :
  pins_ok (pins s) = true -> state_int s -> cursor_inv s ->
  (Z.to_nat (hd_cols s - hd_col s) <= fuel)%nat ->
  exists (s' : hd44780_state) (t : trace),
    run_operation fuel op s = Ok tt s' t
    /\ cursor_inv s' /\ same_config s s'.
Proof.
  intros Hp Hi Hinv Hf.
  pose proof Hi as (Hl & Hcs & Hc & Hr).
  pose proof Hinv as ((Hr0 & Hr1) & Hc0 & Hc1).
  assert (Hsame : forall s' : hd44780_state,
             hd_ifwidth s' = hd_ifwidth s -> hd_lines s' = hd_lines s ->
             hd_cols s' = hd_cols s -> hd_blink s' = hd_blink s ->
             hd_cursor s' = hd_cursor s -> hd_font s' = hd_font s ->
             hd_bl_on s' = hd_bl_on s -> pins s' = pins s ->
             same_config s s').
  { intros s' H1 H2 H3 H4 H5 H6 H7 H8. unfold same_config. tauto. }
  assert (Hdone : forall (s' : hd44780_state) (t : trace) (r : result unit),
             r = Ok tt s' t -> cursor_inv s' -> same_config s s' ->
             exists s'' t', r = Ok tt s'' t'
                            /\ cursor_inv s'' /\ same_config s s'').
  { intros s' t r -> H1 H2. exists s', t. tauto. }
  destruct op as [cmd | c]; cbn [run_operation].
  - destruct cmd.
    + eapply Hdone; [now apply cmd_reset_ok | |];
        [unfold cursor_inv; cbn; lia | apply Hsame; reflexivity].
    + destruct (Z.eq_dec (hd_col s) 0) as [E | E].
      * eapply Hdone; [apply cmd_bksp_flash_ok; [assumption | lia] | |];
          [assumption | apply Hsame; reflexivity].
      * eapply Hdone;
          [apply cmd_bksp_left_ok; [assumption | assumption | lia] | |];
          [unfold cursor_inv; cbn; lia | apply Hsame; reflexivity].
    + eapply Hdone; [now apply cmd_clr_ok | |];
        [unfold cursor_inv; cbn; lia | apply Hsame; reflexivity].
    + pose proof (cmd_nl_ok fuel s Hp Hi ltac:(unfold INT_MIN; lia) Hc1 Hf)
        as Hnl.
      cbv zeta in Hnl.
      destruct (hd_row s <? hd_lines s - 1) eqn:E.
      * apply Z.ltb_lt in E.
        eapply Hdone; [exact Hnl | |];
          [unfold cursor_inv; cbn; lia | apply Hsame; reflexivity].
      * eapply Hdone; [exact Hnl | |];
          [unfold cursor_inv; cbn; lia | apply Hsame; reflexivity].
    + eapply Hdone; [now apply cmd_cr_ok | |];
        [unfold cursor_inv; cbn; lia | apply Hsame; reflexivity].
    + eapply Hdone; [now apply cmd_home_ok | |];
        [unfold cursor_inv; cbn; lia | apply Hsame; reflexivity].
    + pose proof (Z.mod_pos_bound (hd_col s) 8 ltac:(lia)) as Hd.
      eapply Hdone;
        [apply cmd_tab_ok; [assumption | assumption | lia] | |];
        [ unfold cursor_inv; cbn [hd_row hd_lines hd_col hd_cols set_hd_col];
          lia
        | apply Hsame; reflexivity ].
    + eapply Hdone; [now apply cmd_flash_ok | |];
        [assumption | apply Hsame; reflexivity].
  - destruct (Z.eq_dec (hd_col s) (hd_cols s)) as [E | E].
    + eapply Hdone; [now apply putc_edge | |];
        [assumption | apply Hsame; reflexivity].
    + eapply Hdone; [now apply putc_write | |].
      * rewrite wrap_int_id
          by (unfold int_range, INT_MIN, INT_MAX in *; lia).
        unfold cursor_inv; cbn; lia.
      * apply Hsame; reflexivity.
Qed.

Lemma cursor_invariant_preserved_witness :
  exists (s' : hd44780_state) (t : trace),
    run_operation 16 (OpCommand CMD_NL) (at_cursor (ready 4 20) 2 4)
    = Ok tt s' t
    /\ cursor_inv s' /\ same_config (at_cursor (ready 4 20) 2 4) s'.
Proof.
  apply (cursor_invariant_preserved 16 (OpCommand CMD_NL)
           (at_cursor (ready 4 20) 2 4)).
  - reflexivity.
  - int_side.
  - unfold cursor_inv. cbn. lia.
  - cbn. lia.
Defined.

(** C10. For a geometry with lines in {1,2,4}, columns > 0 and
    lines * columns <= 80 and a cursor with 0 <= row < lines and
    0 <= column <= columns, [hd44780_calc_addr] is below 0x80, so OR-ing
    it with the set-address bit 0x80 adds that bit and leaves the seven
    address bits as they are. *)
Theorem calc_addr_below_0x80 (s : hd44780_state) :
  geometry_ok (hd_lines s) (hd_cols s) -> cursor_inv s ->
  0 <= hd44780_calc_addr s < 0x80
  /\ Z.lor HD_CMD_SET_ADDR (hd44780_calc_addr s) = 0x80 + hd44780_calc_addr s
  /\ Z.land (Z.lor HD_CMD_SET_ADDR (hd44780_calc_addr s)) 0x7f
     = hd44780_calc_addr s.
Proof.
  intros Hg Hinv.
  destruct (calc_addr_exact s Hg Hinv) as (E & Ho & Hlt).
  assert (Hr : 0 <= hd44780_calc_addr s < 0x80).
  { rewrite E. destruct Hinv as (_ & Hc0 & _). lia. }
  split; [exact Hr|]. now apply lor_0x80.
Qed.

Lemma calc_addr_below_0x80_witness :
  0 <= hd44780_calc_addr (at_cursor (ready 4 20) 3 20) < 0x80.
Proof.
  refine (proj1 (calc_addr_below_0x80 (at_cursor (ready 4 20) 3 20) _ _)).
  - unfold geometry_ok. cbn. lia.
  - unfold cursor_inv. cbn. lia.
Defined.

(** * Further properties of the driver *)

(** ** Every operation in closed form *)

Lemma run_operation_ok (fuel : nat) (op : operation) (s : hd44780_state) :
  pins_ok (pins s) = true -> state_int s -> cursor_inv s ->
  (Z.to_nat (hd_cols s - hd_col s) <= fuel)%nat ->
  run_operation fuel op s
  = Ok tt (operation_state s op) (operation_events s op).
Proof.
  intros Hp Hi Hinv Hf.
  pose proof Hi as (Hl & Hcs & Hc & Hr).
  pose proof Hinv as ((Hr0 & Hr1) & Hc0 & Hc1).
  destruct op as [cmd | c]; cbn [run_operation].
  - destruct cmd; cbn [operation_state operation_events].
    + now apply cmd_reset_ok.
    + destruct (hd_col s >? 0) eqn:E.
      * apply Z.gtb_lt in E. apply cmd_bksp_left_ok; try assumption. lia.
      * apply cmd_bksp_flash_ok; [assumption|].
        destruct (Z_le_gt_dec (hd_col s) 0) as [L | G]; [assumption|].
        apply Z.gt_lt, Z.gtb_lt in G. congruence.
    + now apply cmd_clr_ok.
    + rewrite cmd_nl_ok by (try assumption; unfold INT_MIN; lia).
      cbv zeta. destruct (hd_row s <? hd_lines s - 1).
      * reflexivity.
      * now rewrite app_nil_r.
    + now apply cmd_cr_ok.
    + now apply cmd_home_ok.
    + apply cmd_tab_ok; [assumption | assumption | lia].
    + now apply cmd_flash_ok.
  - cbn [operation_state operation_events].
    destruct (hd_col s =? hd_cols s) eqn:E.
    + apply Z.eqb_eq in E. now apply putc_edge.
    + apply Z.eqb_neq in E. rewrite putc_write by assumption.
      rewrite wrap_int_id by (unfold int_range, INT_MIN, INT_MAX in *; lia).
      reflexivity.
Qed.

Lemma tab_target_bounds (s : hd44780_state) :
  0 <= hd_col s <= hd_cols s ->
  hd_col s <= tab_target s <= hd_cols s
  /\ tab_target s - hd_col s <= 8
  /\ (hd_col s < hd_cols s -> hd_col s < tab_target s)
  /\ (tab_target s mod 8 = 0 \/ tab_target s = hd_cols s).
Proof.
  intros Hc. unfold tab_target.
  pose proof (Z.mod_pos_bound (hd_col s) 8 ltac:(lia)) as Hm.
  pose proof (Z.div_mod (hd_col s) 8 ltac:(lia)) as Hd.
  repeat split; try lia.
  destruct (Z_le_gt_dec (hd_cols s) (hd_col s + (8 - hd_col s mod 8)))
    as [L | G].
  - right. lia.
  - left. rewrite Z.min_r by lia.
    replace (hd_col s + (8 - hd_col s mod 8))
      with (0 + (hd_col s / 8 + 1) * 8) by lia.
    rewrite Z.mod_add by lia. reflexivity.
Qed.

Lemma operation_state_inv (s : hd44780_state) (op : operation) :
  cursor_inv s ->
  cursor_inv (operation_state s op) /\ same_config s (operation_state s op).
Proof.
  intros ((Hr0 & Hr1) & Hc0 & Hc1).
  pose proof (tab_target_bounds s (conj Hc0 Hc1)) as (Ht & _).
  assert (Hsame : forall s' : hd44780_state,
             hd_ifwidth s' = hd_ifwidth s -> hd_lines s' = hd_lines s ->
             hd_cols s' = hd_cols s -> hd_blink s' = hd_blink s ->
             hd_cursor s' = hd_cursor s -> hd_font s' = hd_font s ->
             hd_bl_on s' = hd_bl_on s -> pins s' = pins s ->
             same_config s s').
  { intros s' H1 H2 H3 H4 H5 H6 H7 H8. unfold same_config. tauto. }
  destruct op as [cmd | c]; [destruct cmd|]; cbn [operation_state].
  - split; [unfold cursor_inv; cbn; lia | apply Hsame; reflexivity].
  - destruct (hd_col s >? 0) eqn:E.
    + apply Z.gtb_lt in E.
      split; [unfold cursor_inv; cbn; lia | apply Hsame; reflexivity].
    + split; [unfold cursor_inv; lia | apply Hsame; reflexivity].
  - split; [unfold cursor_inv; cbn; lia | apply Hsame; reflexivity].
  - destruct (hd_row s <? hd_lines s - 1) eqn:E.
    + apply Z.ltb_lt in E.
      split; [unfold cursor_inv; cbn; lia | apply Hsame; reflexivity].
    + split; [unfold cursor_inv; cbn; lia | apply Hsame; reflexivity].
  - split; [unfold cursor_inv; cbn; lia | apply Hsame; reflexivity].
  - split; [unfold cursor_inv; cbn; lia | apply Hsame; reflexivity].
  - split; [|apply Hsame; reflexivity].
    unfold cursor_inv. cbn [hd_row hd_lines hd_col hd_cols set_hd_col]. lia.
  - split; [unfold cursor_inv; lia | apply Hsame; reflexivity].
  - destruct (hd_col s =? hd_cols s) eqn:E.
    + split; [unfold cursor_inv; lia | apply Hsame; reflexivity].
    + apply Z.eqb_neq in E.
      split; [unfold cursor_inv; cbn; lia | apply Hsame; reflexivity].
Qed.

Lemma state_int_kept (s s' : hd44780_state) :
  state_int s -> cursor_inv s' -> same_config s s' -> state_int s'.
Proof.
  intros (Hl & Hcs & Hc & Hr) ((Hr0 & Hr1) & Hc0 & Hc1)
         (_ & El & Ec & _).
  unfold state_int, int_range, INT_MIN, INT_MAX in *.
  rewrite El, Ec in *. lia.
Qed.

Lemma same_config_trans (s1 s2 s3 : hd44780_state) :
  same_config s1 s2 -> same_config s2 s3 -> same_config s1 s3.
Proof.
  unfold same_config.
  intros (A1 & A2 & A3 & A4 & A5 & A6 & A7 & A8)
         (B1 & B2 & B3 & B4 & B5 & B6 & B7 & B8).
  repeat split; congruence.
Qed.

Lemma same_config_refl (s : hd44780_state) : same_config s s.
Proof. unfold same_config. tauto. Qed.

(** ** Traces of the operations: lines driven and time spent *)

Lemma write_only_output (p : list Z) (type : reg_type) (d : Z) :
  forallb event_write_only (output_events p type d) = true.
Proof. destruct type; reflexivity. Qed.

Lemma write_only_output4 (p : list Z) (type : reg_type) (d : Z) :
  forallb event_write_only (output4_events p type d) = true.
Proof. destruct type; reflexivity. Qed.

Lemma write_only_repeat (n : nat) (t : trace) :
  forallb event_write_only t = true ->
  forallb event_write_only (repeat_events n t) = true.
Proof.
  intros H. induction n as [|n IH]; [reflexivity|].
  cbn [repeat_events]. now rewrite forallb_app, H, IH.
Qed.

Ltac write_only_side :=
  repeat rewrite forallb_app;
  repeat first
    [ rewrite write_only_output
    | rewrite write_only_output4
    | rewrite write_only_repeat by
        (unfold putc_events; rewrite forallb_app, write_only_output;
         reflexivity) ];
  reflexivity.

Lemma operation_events_write_only (s : hd44780_state) (op : operation) :
  forallb event_write_only (operation_events s op) = true.
Proof.
  destruct op as [cmd | c]; [destruct cmd|]; cbn [operation_events].
  - unfold reset_init_events, clear_events. cbv zeta.
    destruct (hd_ifwidth s =? 4); write_only_side.
  - destruct (hd_col s >? 0);
      unfold bksp_events, putc_events, flash_events, flash_once_events;
      write_only_side.
  - unfold clear_events. write_only_side.
  - destruct (hd_row s <? hd_lines s - 1);
      unfold set_addr_events; write_only_side.
  - unfold set_addr_events. write_only_side.
  - unfold home_events. write_only_side.
  - write_only_side.
  - unfold flash_events, flash_once_events. write_only_side.
  - destruct (hd_col s =? hd_cols s); [reflexivity|].
    unfold putc_events. write_only_side.
Qed.

Lemma trace_delay_app (t1 t2 : trace) :
  trace_delay (t1 ++ t2) = trace_delay t1 + trace_delay t2.
Proof.
  induction t1 as [|e t1 IH]; [reflexivity|].
  destruct e; cbn [app trace_delay]; rewrite IH; lia.
Qed.

Lemma trace_delay_output (p : list Z) (type : reg_type) (d : Z) :
  trace_delay (output_events p type d) = 160.
Proof. reflexivity. Qed.

Lemma trace_delay_output4 (p : list Z) (type : reg_type) (d : Z) :
  trace_delay (output4_events p type d) = 80.
Proof. reflexivity. Qed.

Lemma trace_delay_repeat (n : nat) (t : trace) :
  trace_delay (repeat_events n t) = Z.of_nat n * trace_delay t.
Proof.
  induction n as [|n IH]; [reflexivity|].
  cbn [repeat_events]. rewrite trace_delay_app, IH. lia.
Qed.

Ltac delay_side :=
  repeat rewrite trace_delay_app;
  repeat rewrite trace_delay_repeat;
  repeat rewrite trace_delay_app;
  repeat rewrite trace_delay_output;
  repeat rewrite trace_delay_output4;
  cbn [trace_delay].

Lemma operation_events_delay (s : hd44780_state) (op : operation) :
  cursor_inv s ->
  trace_delay (operation_events s op) = operation_delay s op.
Proof.
  intros ((Hr0 & Hr1) & Hc0 & Hc1).
  pose proof (tab_target_bounds s (conj Hc0 Hc1)) as (Ht & _).
  destruct op as [cmd | c]; [destruct cmd|];
    cbn [operation_events operation_delay].
  - unfold reset_init_events, clear_events. cbv zeta.
    destruct (hd_ifwidth s =? 4); delay_side; lia.
  - destruct (hd_col s >? 0);
      unfold bksp_events, putc_events, flash_events, flash_once_events;
      delay_side; lia.
  - unfold clear_events. delay_side. lia.
  - destruct (hd_row s <? hd_lines s - 1);
      unfold set_addr_events, putc_events; delay_side; lia.
  - unfold set_addr_events. delay_side. lia.
  - unfold home_events. delay_side. lia.
  - unfold putc_events. delay_side. lia.
  - unfold flash_events, flash_once_events. delay_side. lia.
  - destruct (hd_col s =? hd_cols s); [reflexivity|].
    unfold putc_events. delay_side. lia.
Qed.

(** ** The input interpreter over whole inputs *)

Lemma bind_assoc {A B C} (m : M A) (f : A -> M B) (g : B -> M C)
      (s : hd44780_state) :
  bind (bind m f) g s = bind m (fun a => bind (f a) g) s.
Proof.
  unfold bind. destruct (m s) as [a s1 t1 | w t1 |]; [|reflexivity..].
  destruct (f a s1) as [b s2 t2 | w t2 |]; [|reflexivity..].
  destruct (g b s2) as [c s3 t3 | w t3 |];
    rewrite ?app_assoc; reflexivity.
Qed.

Lemma bind_ret_l {A B} (a : A) (f : A -> M B) (s : hd44780_state) :
  bind (ret a) f s = f a s.
Proof. unfold bind, ret. destruct (f a s); reflexivity. Qed.

Lemma bind_ret_r {A} (m : M A) (s : hd44780_state) :
  bind m ret s = m s.
Proof.
  unfold bind, ret. destruct (m s); rewrite ?app_nil_r; reflexivity.
Qed.

Lemma bind_ext {A B} (m : M A) (f g : A -> M B) (s : hd44780_state) :
  (forall a s', f a s' = g a s') -> bind m f s = bind m g s.
Proof.
  intros H. unfold bind. destruct (m s); [|reflexivity..]. now rewrite H.
Qed.

Lemma feed_app (fuel : nat) (l1 l2 : list Z) :
  forall (esc : Z) (s : hd44780_state),
    feed fuel esc (l1 ++ l2) s
    = bind (feed fuel esc l1) (fun e => feed fuel e l2) s.
Proof.
  induction l1 as [|ch l1 IH]; intros esc s.
  - cbn [app feed]. now rewrite bind_ret_l.
  - cbn [app feed]. rewrite bind_assoc.
    apply bind_ext. intros e s'. apply IH.
Qed.

(* with no escape pending, a character other than ESC runs the operation
   it stands for, or nothing *)
Lemma do_char_dispatch (fuel : nat) (ch : Z) (s : hd44780_state) :
  ch <> 27 ->
  do_char fuel 0 ch s
  = with_value 0 (match char_operation ch with
                  | Some op => run_operation fuel op s
                  | None => Ok tt s []
                  end).
Proof.
  intros H. apply Z.eqb_neq in H.
  unfold do_char, char_operation. cbn [Z.eqb negb]. rewrite H.
  assert (Hv : forall m : M unit,
             bind m (fun _ => ret 0) s = with_value 0 (m s)).
  { intros m. unfold bind, ret.
    destruct (m s); cbn [with_value]; rewrite ?app_nil_r; reflexivity. }
  rewrite Hv.
  destruct (ch =? 10); [reflexivity|].
  destruct (ch =? 13); [reflexivity|].
  destruct (ch =? 9); [reflexivity|].
  destruct (ch =? 7); [reflexivity|].
  destruct (ch =? 8); [reflexivity|].
  destruct (ch =? 12); [reflexivity|].
  destruct (isascii_print ch); reflexivity.
Qed.

(* with escape pending, only 'R' and 'H' do anything *)
Lemma do_char_escape_cases (fuel : nat) (esc ch : Z) (s : hd44780_state) :
  esc <> 0 ->
  (ch = 82 /\ do_char fuel esc ch s
             = with_value 0 (run_operation fuel (OpCommand CMD_RESET) s))
  \/ (ch = 72 /\ do_char fuel esc ch s
                = with_value 0 (run_operation fuel (OpCommand CMD_HOME) s))
  \/ (ch <> 82 /\ ch <> 72 /\ do_char fuel esc ch s = Ok 0 s []).
Proof.
  intros He. apply Z.eqb_neq in He.
  unfold do_char. rewrite He. cbn [negb run_operation].
  destruct (Z.eq_dec ch 82) as [E | E]; [left|right].
  - subst ch. split; [reflexivity|]. cbn [Z.eqb Pos.eqb].
    unfold bind, ret.
    destruct (hd44780_command fuel CMD_RESET s); cbn [with_value];
      rewrite ?app_nil_r; reflexivity.
  - destruct (Z.eq_dec ch 72) as [E' | E']; [left|right].
    + subst ch. split; [reflexivity|]. cbn [Z.eqb Pos.eqb].
      unfold bind, ret.
      destruct (hd44780_command fuel CMD_HOME s); cbn [with_value];
        rewrite ?app_nil_r; reflexivity.
    + repeat split; try assumption.
      apply Z.eqb_neq in E, E'. rewrite E, E'. reflexivity.
Qed.

Lemma do_char_ok (fuel : nat) (esc ch : Z) (s : hd44780_state) :
  pins_ok (pins s) = true -> state_int s -> cursor_inv s ->
  (Z.to_nat (hd_cols s) <= fuel)%nat ->
  exists (s' : hd44780_state) (t : trace),
    do_char fuel esc ch s = Ok (next_esc esc ch) s' t
    /\ cursor_inv s' /\ same_config s s'
    /\ forallb event_write_only t = true.
Proof.
  intros Hp Hi Hinv Hf.
  assert (Hf' : (Z.to_nat (hd_cols s - hd_col s) <= fuel)%nat).
  { destruct Hinv as (_ & Hc0 & _). lia. }
  assert (Hop : forall op : operation,
             exists s' t,
               with_value 0 (run_operation fuel op s) = Ok 0 s' t
               /\ cursor_inv s' /\ same_config s s'
               /\ forallb event_write_only t = true).
  { intros op. rewrite run_operation_ok by assumption.
    exists (operation_state s op), (operation_events s op).
    destruct (operation_state_inv s op Hinv) as (H1 & H2).
    split; [reflexivity|]. split; [exact H1|]. split; [exact H2|].
    apply operation_events_write_only. }
  assert (Hnone : exists s' t,
             Ok 0 s [] = Ok 0 s' t
             /\ cursor_inv s' /\ same_config s s'
             /\ forallb event_write_only t = true).
  { exists s, []. split; [reflexivity|]. split; [exact Hinv|].
    split; [apply same_config_refl | reflexivity]. }
  destruct (Z.eq_dec esc 0) as [E0 | E0].
  - subst esc. destruct (Z.eq_dec ch 27) as [E | E].
    + subst ch. exists s, []. split; [reflexivity|]. split; [exact Hinv|].
      split; [apply same_config_refl | reflexivity].
    + rewrite do_char_dispatch by assumption.
      assert (En : next_esc 0 ch = 0).
      { unfold next_esc. apply Z.eqb_neq in E. now rewrite E. }
      rewrite En.
      destruct (char_operation ch) as [op|]; [apply Hop | exact Hnone].
  - assert (En : next_esc esc ch = 0).
    { unfold next_esc. apply Z.eqb_neq in E0. now rewrite E0. }
    rewrite En.
    pose proof (do_char_escape_cases fuel esc ch s E0) as Hd.
    destruct Hd as [(-> & Hd) | [(-> & Hd) | (_ & _ & Hd)]]; rewrite Hd.
    + apply (Hop (OpCommand CMD_RESET)).
    + apply (Hop (OpCommand CMD_HOME)).
    + exact Hnone.
Qed.

Lemma feed_ok (fuel : nat) (input : list Z) :
  forall (esc : Z) (s : hd44780_state),
    pins_ok (pins s) = true -> state_int s -> cursor_inv s ->
    (Z.to_nat (hd_cols s) <= fuel)%nat ->
    exists (esc' : Z) (s' : hd44780_state) (t : trace),
      feed fuel esc input s = Ok esc' s' t
      /\ (esc' = esc \/ esc' = 0 \/ esc' = 1)
      /\ cursor_inv s' /\ same_config s s'
      /\ forallb event_write_only t = true.
Proof.
  induction input as [|ch input IH]; intros esc s Hp Hi Hinv Hf.
  - exists esc, s, []. split; [reflexivity|]. split; [now left|].
    split; [exact Hinv|]. split; [apply same_config_refl | reflexivity].
  - destruct (do_char_ok fuel esc ch s Hp Hi Hinv Hf)
      as (s1 & t1 & E1 & Hinv1 & Hsame1 & Hw1).
    pose proof (state_int_kept s s1 Hi Hinv1 Hsame1) as Hi1.
    pose proof Hsame1 as (_ & _ & Ec & _ & _ & _ & _ & Epins).
    destruct (IH (next_esc esc ch) s1) as (e2 & s2 & t2 & E2 & He2 & Hinv2
                                           & Hsame2 & Hw2);
      try assumption; try congruence.
    exists e2, s2, (t1 ++ t2). split.
    + cbn [feed]. apply bind_Ok_Ok with (a := next_esc esc ch) (s1 := s1);
        assumption.
    + split.
      * right. destruct He2 as [-> | He2]; [|exact He2].
        unfold next_esc. destruct ((esc =? 0) && (ch =? 27)); auto.
      * split; [exact Hinv2|].
        split; [exact (same_config_trans _ _ _ Hsame1 Hsame2)|].
        now rewrite forallb_app, Hw1, Hw2.
Qed.

Lemma feed_args_concat (fuel : nat) (args : list (list Z)) :
  forall (esc : Z) (s : hd44780_state),
    feed_args fuel esc args s = feed fuel esc (concat args) s.
Proof.
  induction args as [|arg args IH]; intros esc s; [reflexivity|].
  cbn [feed_args concat]. rewrite feed_app.
  apply bind_ext. intros e s'. apply IH.
Qed.

(** ** The checks of [main], for any state *)

Lemma main_checks_outcome (s : hd44780_state) :
  main_checks s
  = if negb (hd_ifwidth s =? 4)
       || lines_unsupported (hd_lines s)
       || cols_unsupported (hd_lines s) (hd_cols s)
       || (negb (hd_bl_on s =? 0)
           && (pin_line (derived_pins (pins s)) HD_PIN_BL =? -1))
    then Stop (ExitCode EX_USAGE) []
    else Ok tt (set_pins s (derived_pins (pins s))) [].
Proof.
  unfold main_checks, bind, get. cbv beta iota.
  destruct (hd_ifwidth s =? 4); [|reflexivity].
  cbn [negb orb for_each]. unfold ret, modify, bind. cbv beta iota.
  destruct (lines_unsupported (hd_lines s)); [reflexivity|].
  destruct (cols_unsupported (hd_lines s) (hd_cols s)); [reflexivity|].
  cbn [orb hd_bl_on pins set_pins].
  change (Z.to_nat (HD_PIN_DAT0 + 1)) with 1%nat.
  change (Z.to_nat (HD_PIN_DAT0 + 2)) with 2%nat.
  change (Z.to_nat (HD_PIN_DAT0 + 3)) with 3%nat.
  fold (derived_pins (pins s)).
  destruct (negb (hd_bl_on s =? 0)
            && (pin_line (derived_pins (pins s)) HD_PIN_BL =? -1));
    reflexivity.
Qed.

Lemma main_checks_touch_no_line_cases (s : hd44780_state) :
  main_checks s = Stop (ExitCode EX_USAGE) []
  \/ main_checks s = Ok tt (set_pins s (derived_pins (pins s))) [].
Proof.
  rewrite main_checks_outcome.
  destruct (negb (hd_ifwidth s =? 4) || lines_unsupported (hd_lines s)
            || cols_unsupported (hd_lines s) (hd_cols s)
            || negb (hd_bl_on s =? 0)
               && (pin_line (derived_pins (pins s)) HD_PIN_BL =? -1));
    auto.
Qed.

Lemma pin_line_list_set (p : list Z) (n : nat) (v : Z) (k : Z) :
  pin_line (list_set p n v) k
  = if (Z.to_nat k =? n)%nat && (n <? length p)%nat
    then v else pin_line p k.
Proof.
  unfold pin_line. generalize (Z.to_nat k) as m. clear k.
  revert n. induction p as [|x p IH]; intros n m.
  - cbn. rewrite andb_false_r. reflexivity.
  - destruct n as [|n]; destruct m as [|m]; cbn [list_set nth length];
      try reflexivity.
    rewrite IH. reflexivity.
Qed.

Lemma list_set_length (p : list Z) (n : nat) (v : Z) :
  length (list_set p n v) = length p.
Proof.
  revert n. induction p as [|x p IH]; intros n; [reflexivity|].
  destruct n; cbn [list_set length]; [reflexivity | now rewrite IH].
Qed.

Lemma derived_pins_line (p : list Z) (k : Z) :
  (4 <= length p)%nat -> 0 <= k ->
  pin_line (derived_pins p) k
  = if (1 <=? k) && (k <=? 3)
    then wrap_int (pin_line p HD_PIN_DAT0 + k) else pin_line p k.
Proof.
  intros Hl Hk. unfold derived_pins. cbv zeta.
  rewrite !pin_line_list_set, !list_set_length.
  change (Z.to_nat HD_PIN_DAT0) with 0%nat. cbn [Nat.eqb andb].
  assert (L1 : (1 <? length p)%nat = true) by (apply Nat.ltb_lt; lia).
  assert (L2 : (2 <? length p)%nat = true) by (apply Nat.ltb_lt; lia).
  assert (L3 : (3 <? length p)%nat = true) by (apply Nat.ltb_lt; lia).
  rewrite L1, L2, L3, !andb_true_r.
  destruct (Z.eq_dec k 1) as [-> | N1]; [reflexivity|].
  destruct (Z.eq_dec k 2) as [-> | N2]; [reflexivity|].
  destruct (Z.eq_dec k 3) as [-> | N3]; [reflexivity|].
  assert (E1 : (Z.to_nat k =? 1)%nat = false) by (apply Nat.eqb_neq; lia).
  assert (E2 : (Z.to_nat k =? 2)%nat = false) by (apply Nat.eqb_neq; lia).
  assert (E3 : (Z.to_nat k =? 3)%nat = false) by (apply Nat.eqb_neq; lia).
  rewrite E1, E2, E3.
  assert (E : (1 <=? k) && (k <=? 3) = false).
  { apply andb_false_iff.
    destruct (Z_le_gt_dec 1 k); [right | left]; lia. }
  rewrite E. reflexivity.
Qed.

(** ** Acquiring the lines and preparing the display *)

Lemma get_lines_all (env : gpio_env) (p : list Z) (l : list Z) :
  forallb (fun i => (pin_line p i =? -1) || line_in_bounds (pin_line p i)) l
  = true ->
  get_lines env p l
  = if forallb (fun i => (pin_line p i =? -1)
                         || line_gets env i (pin_line p i)) l
    then GotAll else GotExit.
Proof.
  induction l as [|i l IH]; [reflexivity|].
  cbn [get_lines forallb]. intros H.
  apply andb_true_iff in H. destruct H as (Hi & Hl).
  destruct (pin_line p i =? -1); cbn [orb andb] in *.
  - now apply IH.
  - rewrite Hi. cbn [negb].
    destruct (line_gets env i (pin_line p i)); cbn [andb];
      [now apply IH | reflexivity].
Qed.


Lemma request_lines_all (env : gpio_env) (p : list Z) (l : list Z) :
  forallb (fun i => (pin_line p i =? -1)
                    || line_requests env i (pin_line p i)) l = true ->
  request_lines env p l
  = (flat_map (fun i => if pin_line p i =? -1 then []
                        else [(i, pin_line p i)]) l, true).
Proof.
  induction l as [|i l IH]; [reflexivity|].
  cbn [request_lines forallb flat_map]. intros H.
  apply andb_true_iff in H. destruct H as (Hi & Hl).
  destruct (pin_line p i =? -1); cbn [orb] in *.
  - now apply IH.
  - rewrite Hi, (IH Hl). reflexivity.
Qed.


Lemma init_low_loop (l : list Z) (s : hd44780_state) :
  for_each l
    (fun i => s <- get ;;
              if pin_line (pins s) i =? -1 then ret tt
              else hd44780_set_pin i false) s
  = Ok tt s
       (flat_map (fun i => if pin_line (pins s) i =? -1 then []
                           else [set_ev (pins s) i false]) l).
Proof.
  induction l as [|i l IH]; [reflexivity|].
  cbn [for_each flat_map]. unfold bind at 1 2. unfold get at 1.
  cbv beta iota.
  destruct (pin_line (pins s) i =? -1) eqn:E.
  - unfold ret at 1. cbv beta iota. rewrite IH. reflexivity.
  - rewrite set_pin_ok by assumption. rewrite IH. reflexivity.
Qed.

Lemma prepare_drive_cases (fuel : nat) (s : hd44780_state) :
  prepare_drive fuel s
  = match hd44780_command fuel CMD_RESET s with
    | Ok _ s1 t1 =>
        let t0 := init_low_events (pins s) ++ Usleep 20000 :: t1 in
        if hd_bl_on s1 =? 0 then Ok tt s1 t0
        else if pin_line (pins s1) HD_PIN_BL =? -1
             then Stop AssertFailed t0
             else Ok tt s1 (t0 ++ [set_ev (pins s1) HD_PIN_BL true])
    | Stop w t1 => Stop w (init_low_events (pins s) ++ Usleep 20000 :: t1)
    | OutOfFuel => OutOfFuel
    end.
Proof.
  unfold prepare_drive, for_assigned_pins.
  unfold bind at 1. rewrite init_low_loop. fold (init_low_events (pins s)).
  unfold bind at 1. unfold usleep, emit. cbv beta iota.
  unfold bind at 1.
  destruct (hd44780_command fuel CMD_RESET s) as [[] s1 t1 | w t1 |];
    cbn [app]; rewrite ?app_nil_r; try reflexivity.
  unfold bind, get. cbv beta iota.
  destruct (hd_bl_on s1 =? 0).
  - unfold ret. rewrite !app_nil_r. reflexivity.
  - unfold hd44780_set_pin, bind, get. cbv beta iota zeta.
    destruct (pin_line (pins s1) HD_PIN_BL =? -1).
    + unfold stop_with. rewrite !app_nil_r. reflexivity.
    + unfold emit. rewrite <- app_assoc. reflexivity.
Qed.

Lemma prepare_drive_ok (fuel : nat) (s : hd44780_state) :
  pins_ok (pins s) = true ->
  (hd_bl_on s = 0 \/ pin_line (pins s) HD_PIN_BL <> -1) ->
  prepare_drive fuel s
  = Ok tt (cursor_home s)
       (init_low_events (pins s) ++ [Usleep 20000]
        ++ (reset_init_events s ++ clear_events (pins s))
        ++ (if hd_bl_on s =? 0 then []
            else [set_ev (pins s) HD_PIN_BL true])).
Proof.
  intros Hp Hbl. rewrite prepare_drive_cases.
  rewrite cmd_reset_ok by assumption. cbv zeta.
  cbn [hd_bl_on pins cursor_home set_hd_col set_hd_row].
  destruct (hd_bl_on s =? 0) eqn:Eb.
  - rewrite app_nil_r. reflexivity.
  - apply Z.eqb_neq in Eb. destruct Hbl as [Hbl | Hbl]; [congruence|].
    apply Z.eqb_neq in Hbl. rewrite Hbl.
    rewrite <- !app_assoc. cbn [app]. rewrite <- ?app_assoc. reflexivity.
Qed.

Lemma prepare_acquired (env : gpio_env) (fuel : nat) (s : hd44780_state) :
  lines_in_bounds (pins s) = true -> acquisition_ok env (pins s) = true ->
  hd44780_prepare env fuel s
  = Runs (assigned_lines (pins s)) (prepare_drive fuel s).
Proof.
  unfold lines_in_bounds, acquisition_ok, lines_acquired. intros Hb H.
  apply andb_true_iff in H. destruct H as (H & H3).
  apply andb_true_iff in H. destruct H as (H1 & H2).
  unfold hd44780_prepare. rewrite H1, (get_lines_all _ _ _ Hb), H2.
  rewrite (request_lines_all _ _ _ H3). reflexivity.
Qed.

(** ** The transmitter and its pins *)

Lemma pins_not_ok (p : list Z) :
  pins_ok p = false ->
  exists pin,
    In pin [HD_PIN_RW; HD_PIN_RS; HD_PIN_DAT0; HD_PIN_DAT1; HD_PIN_DAT2;
            HD_PIN_DAT3; HD_PIN_E]
    /\ (pin_line p pin =? -1) = true.
Proof.
  unfold pins_ok. cbn [forallb]. intros H.
  destruct (pin_line p HD_PIN_DAT0 =? -1) eqn:E0;
    [exists HD_PIN_DAT0; cbn; auto 10|].
  destruct (pin_line p HD_PIN_DAT1 =? -1) eqn:E1;
    [exists HD_PIN_DAT1; cbn; auto 10|].
  destruct (pin_line p HD_PIN_DAT2 =? -1) eqn:E2;
    [exists HD_PIN_DAT2; cbn; auto 10|].
  destruct (pin_line p HD_PIN_DAT3 =? -1) eqn:E3;
    [exists HD_PIN_DAT3; cbn; auto 10|].
  destruct (pin_line p HD_PIN_RS =? -1) eqn:E4;
    [exists HD_PIN_RS; cbn; auto 10|].
  destruct (pin_line p HD_PIN_RW =? -1) eqn:E5;
    [exists HD_PIN_RW; cbn; auto 10|].
  destruct (pin_line p HD_PIN_E =? -1) eqn:E6;
    [exists HD_PIN_E; cbn; auto 10|].
  discriminate H.
Qed.

Lemma set_pin_cases (pin : Z) (on : bool) (s : hd44780_state) :
  hd44780_set_pin pin on s
  = if pin_line (pins s) pin =? -1 then Stop AssertFailed []
    else Ok tt s [set_ev (pins s) pin on].
Proof.
  unfold hd44780_set_pin, bind, get. cbv beta iota zeta.
  destruct (pin_line (pins s) pin =? -1); reflexivity.
Qed.

Ltac assert_step :=
  rewrite set_pin_cases;
  first
    [ match goal with
      | H : (pin_line (pins ?s) ?k =? -1) = false
        |- context [pin_line (pins ?s) ?k =? -1] => rewrite H
      end
    | match goal with
      | |- context [if pin_line (pins ?s) ?k =? -1 then _ else _] =>
          destruct (pin_line (pins s) k =? -1) eqn:?;
          [cbv beta iota; eexists; reflexivity |]
      end ];
  cbv beta iota.

Lemma output_asserts (type : reg_type) (d : Z) (s : hd44780_state) :
  pins_ok (pins s) = false ->
  exists t, hd44780_output type d s = Stop AssertFailed t.
Proof.
  intros H. apply pins_not_ok in H. destruct H as (pin & Hin & Hpin).
  unfold hd44780_output, hd44780_strobe, for_each, bind, usleep, emit, ret.
  cbv beta iota zeta.
  change (HD_PIN_DAT0 + 0) with HD_PIN_DAT0.
  change (HD_PIN_DAT0 + 1) with HD_PIN_DAT1.
  change (HD_PIN_DAT0 + 2) with HD_PIN_DAT2.
  change (HD_PIN_DAT0 + 3) with HD_PIN_DAT3.
  assert_step.
  destruct type; do 6 assert_step;
    exfalso; cbn [In] in Hin;
    repeat (destruct Hin as [<- | Hin]; [congruence|]); exact Hin.
Qed.

Lemma output_events_wrap (p : list Z) (type : reg_type) (d : Z) :
  output_events p type (wrap_u8 d) = output_events p type d.
Proof.
  unfold output_events, output4_events.
  assert (E : wrap_u8 (wrap_u8 d) = wrap_u8 d).
  { unfold wrap_u8. apply Z.mod_mod. lia. }
  now rewrite E.
Qed.

(** ** One address per cell *)

Lemma calc_addr_cells (s1 s2 : hd44780_state) :
  hd_lines s1 = hd_lines s2 -> hd_cols s1 = hd_cols s2 ->
  geometry_ok (hd_lines s1) (hd_cols s1) ->
  0 <= hd_row s1 < hd_lines s1 -> 0 <= hd_col s1 < hd_cols s1 ->
  0 <= hd_row s2 < hd_lines s2 -> 0 <= hd_col s2 < hd_cols s2 ->
  hd44780_calc_addr s1 = hd44780_calc_addr s2 ->
  hd_row s1 = hd_row s2 /\ hd_col s1 = hd_col s2.
Proof.
  intros El Ec Hg Hr1 Hc1 Hr2 Hc2.
  assert (Hg2 : geometry_ok (hd_lines s2) (hd_cols s2))
    by (rewrite <- El, <- Ec; exact Hg).
  destruct (calc_addr_exact s1 Hg) as (E1 & _ & _);
    [unfold cursor_inv; lia|].
  destruct (calc_addr_exact s2 Hg2) as (E2 & _ & _);
    [unfold cursor_inv; lia|].
  rewrite E1, E2. unfold row_offset, HD_LINE1_DRAM_OFFSET.
  destruct Hg as (Hl & Hpos & Hprod).
  assert (R1 : hd_row s1 = 0 \/ hd_row s1 = 1 \/ hd_row s1 = 2
               \/ hd_row s1 = 3) by lia.
  assert (R2 : hd_row s2 = 0 \/ hd_row s2 = 1 \/ hd_row s2 = 2
               \/ hd_row s2 = 3) by lia.
  destruct R1 as [R1 | [R1 | [R1 | R1]]];
    destruct R2 as [R2 | [R2 | [R2 | R2]]];
    rewrite R1, R2 in *; cbn [Z.eqb Pos.eqb orb]; lia.
Qed.

(** * Further properties, stated *)

(** X1. The configuration checks of [main] drive no line: from any state
    they either exit with the usage status or return, in both cases with an
    empty trace, and on return only the pins array has changed. *)
Theorem main_checks_touch_no_line (s : hd44780_state) :
  result_trace (main_checks s) = []
  /\ (main_checks s = Stop (ExitCode EX_USAGE) []
      \/ main_checks s = Ok tt (set_pins s (derived_pins (pins s))) []).
Proof.
  rewrite main_checks_outcome.
  destruct (negb (hd_ifwidth s =? 4) || lines_unsupported (hd_lines s)
            || cols_unsupported (hd_lines s) (hd_cols s)
            || negb (hd_bl_on s =? 0)
               && (pin_line (derived_pins (pins s)) HD_PIN_BL =? -1));
    split; auto.
Qed.

(** X2. Where the product of lines and columns fits an [int], the checks of
    [main] let a configuration through exactly when the interface width is
    4, the geometry has 1, 2 or 4 lines, a positive column count and at most
    80 cells, and the backlight is off or its pin is assigned. *)
Theorem main_checks_accepts_iff (s : hd44780_state) :
  int_range (hd_lines s * hd_cols s) ->
  (main_checks s = Ok tt (set_pins s (derived_pins (pins s))) []
   <-> hd_ifwidth s = 4
       /\ geometry_ok (hd_lines s) (hd_cols s)
       /\ (hd_bl_on s = 0
           \/ pin_line (derived_pins (pins s)) HD_PIN_BL <> -1)).
Proof.
  intros Hr. rewrite main_checks_outcome.
  pose proof (geometry_check_in_range (hd_lines s) (hd_cols s) Hr) as Hg.
  destruct (hd_ifwidth s =? 4) eqn:Ew; cbn [negb orb].
  - apply Z.eqb_eq in Ew.
    destruct (lines_unsupported (hd_lines s)
              || cols_unsupported (hd_lines s) (hd_cols s)) eqn:Eg.
    + rewrite orb_true_l. split; [discriminate|].
      intros (_ & G & _). apply Hg in G. congruence.
    + rewrite orb_false_l.
      destruct (hd_bl_on s =? 0) eqn:Eb; cbn [negb andb].
      * apply Z.eqb_eq in Eb. split; [|reflexivity].
        intros _. split; [exact Ew|]. split; [now apply Hg | now left].
      * apply Z.eqb_neq in Eb.
        destruct (pin_line (derived_pins (pins s)) HD_PIN_BL =? -1) eqn:Ep.
        -- apply Z.eqb_eq in Ep. split; [discriminate|].
           intros (_ & _ & [B | B]); congruence.
        -- apply Z.eqb_neq in Ep. split; [|reflexivity].
           intros _. split; [exact Ew|]. split; [now apply Hg | now right].
  - apply Z.eqb_neq in Ew. split; [discriminate|].
    intros (W & _). congruence.
Qed.

Lemma main_checks_accepts_iff_witness :
  main_checks (configured 4 20) = Ok tt (ready 4 20) [].
Proof.
  refine (proj2 (main_checks_accepts_iff (configured 4 20) _) _).
  - int_side.
  - split; [reflexivity|]. split; [unfold geometry_ok; cbn; lia|].
    right. vm_compute. lia.
Defined.

(** X3. When the checks of [main] return, the data pins DAT1..DAT3 hold the
    number of DAT0 plus 1, 2 and 3 (taken in [int]); every other entry of
    the pins array, and every other field of the state, is as before. *)
Theorem main_checks_data_pins (s s' : hd44780_state) (t : trace) :
  main_checks s = Ok tt s' t -> (4 <= length (pins s))%nat ->
  (forall k, 1 <= k <= 3 ->
             pin_line (pins s') k
             = wrap_int (pin_line (pins s) HD_PIN_DAT0 + k))
  /\ (forall k, 0 <= k -> ~ 1 <= k <= 3 ->
                pin_line (pins s') k = pin_line (pins s) k)
  /\ s' = set_pins s (pins s').
Proof.
  intros H Hl.
  destruct (main_checks_touch_no_line_cases s) as [E | E];
    rewrite E in H; [discriminate|].
  injection H as <- _. cbn [pins set_pins].
  split; [|split; [|reflexivity]].
  - intros k Hk. rewrite derived_pins_line by lia.
    assert (E1 : (1 <=? k) && (k <=? 3) = true).
    { apply andb_true_iff. split; apply Z.leb_le; lia. }
    now rewrite E1.
  - intros k Hk Hn. rewrite derived_pins_line by lia.
    assert (E1 : (1 <=? k) && (k <=? 3) = false).
    { apply andb_false_iff.
      destruct (Z_le_gt_dec 1 k); [right | left];
        [apply Z.leb_gt | apply Z.leb_gt]; lia. }
    now rewrite E1.
Qed.

Lemma main_checks_data_pins_witness :
  pin_line (pins (ready 2 16)) HD_PIN_DAT3 = 7.
Proof.
  refine (proj1 (main_checks_data_pins (configured 2 16) (ready 2 16) []
                   _ _) 3 _).
  - reflexivity.
  - cbn. lia.
  - lia.
Defined.

(** X4. [hd44780_output] returns exactly when the seven pins it drives
    (RS, R/W, E and the four data pins) are assigned; with any of them
    unassigned it stops on the assertion of [hd44780_set_pin]. *)
Theorem output_needs_pins (type : reg_type) (d : Z) (s : hd44780_state) :
  ((exists t, hd44780_output type d s = Ok tt s t)
   <-> pins_ok (pins s) = true)
  /\ (pins_ok (pins s) = false ->
      exists t, hd44780_output type d s = Stop AssertFailed t).
Proof.
  split; [split|].
  - intros (t & H). destruct (pins_ok (pins s)) eqn:E; [reflexivity|].
    destruct (output_asserts type d s E) as (t' & H'). congruence.
  - intros H. eexists. now apply output_ok.
  - apply output_asserts.
Qed.

Lemma output_needs_pins_witness :
  exists t,
    hd44780_output HD_DATA 65
      (set_pins (ready 2 16) [4; 5; 6; -1; -1; -1; -1; -1; 0; 1; 2; 3])
    = Stop AssertFailed t.
Proof.
  apply (proj2 (output_needs_pins HD_DATA 65
                  (set_pins (ready 2 16)
                            [4; 5; 6; -1; -1; -1; -1; -1; 0; 1; 2; 3]))).
  reflexivity.
Defined.

(** X5. The lines [hd44780_output] drives carry the byte: read by a module
    in 4-bit mode that is between two bytes, the two strobes deliver
    exactly the data reduced to 8 bits, with RS telling data from
    instruction, and leave the module between two bytes again. *)
Theorem output_delivers_byte
        (type : reg_type) (data : Z) (s : hd44780_state) (d : lcd) :
  pins_ok (pins s) = true -> lcd_idle d ->
  exists t,
    hd44780_output type data s = Ok tt s t
    /\ lcd_idle (lcd_run d t)
    /\ lcd_mem (lcd_run d t)
       = lcd_exec (is_data type) (wrap_u8 data) (lcd_mem d).
Proof.
  intros Hp Hd. exists (output_events (pins s) type data).
  split; [now apply output_ok|].
  rewrite <- output_events_wrap.
  apply lcd_receives_byte; [|assumption].
  unfold wrap_u8. apply Z.mod_pos_bound. lia.
Qed.

Lemma output_delivers_byte_witness :
  exists t,
    hd44780_output HD_DATA 321 (ready 2 16) = Ok tt (ready 2 16) t
    /\ lcd_idle (lcd_run (mkLcd false false false
                                [false; false; false; false] None
                                (mkCore 5 (fun _ => 32))) t)
    /\ lcd_mem (lcd_run (mkLcd false false false
                               [false; false; false; false] None
                               (mkCore 5 (fun _ => 32))) t)
       = lcd_exec true 65 (mkCore 5 (fun _ => 32)).
Proof.
  apply (output_delivers_byte HD_DATA 321 (ready 2 16)
           (mkLcd false false false [false; false; false; false] None
                  (mkCore 5 (fun _ => 32)))).
  - reflexivity.
  - unfold lcd_idle. cbn. auto.
Defined.

(** X6. Each operation takes a fixed programmed delay: 200 us per
    character written and none for a clipped one, 2160 us for CLEAR and
    HOME, 1160 us for CR, 1520 us for a backspace, 800640 us for FLASH,
    200 us per padded cell plus 1160 us for the move in NL, 200 us per
    cell in TAB, and 28120 us for RESET on a 4-bit interface. *)
Theorem operation_timing (fuel : nat) (op : operation) (s : hd44780_state) :
  pins_ok (pins s) = true -> state_int s -> cursor_inv s ->
  (Z.to_nat (hd_cols s - hd_col s) <= fuel)%nat ->
  exists (s' : hd44780_state) (t : trace),
    run_operation fuel op s = Ok tt s' t
    /\ trace_delay t = operation_delay s op.
Proof.
  intros Hp Hi Hinv Hf.
  exists (operation_state s op), (operation_events s op).
  split; [now apply run_operation_ok | now apply operation_events_delay].
Qed.

Lemma operation_timing_witness :
  exists (s' : hd44780_state) (t : trace),
    run_operation 16 (OpCommand CMD_NL) (at_cursor (ready 2 16) 0 2) = Ok tt s' t
    /\ trace_delay t = 3960.
Proof.
  apply (operation_timing 16 (OpCommand CMD_NL) (at_cursor (ready 2 16) 0 2)).
  - reflexivity.
  - int_side.
  - unfold cursor_inv. cbn. lia.
  - cbn. lia.
Defined.

(** X7. Whatever the input, [feed] returns: with the pins assigned and the
    cursor in range it processes every character, never stops on an
    assertion, keeps the cursor in range and the configuration unchanged,
    never drives the R/W line high and never touches the backlight line;
    the escape flag ends as 0 or 1 (or as given, for the empty input). *)
Theorem feed_total (fuel : nat) (esc : Z) (input : list Z)
        (s : hd44780_state) :
  pins_ok (pins s) = true -> state_int s -> cursor_inv s ->
  (Z.to_nat (hd_cols s) <= fuel)%nat ->
  exists (esc' : Z) (s' : hd44780_state) (t : trace),
    feed fuel esc input s = Ok esc' s' t
    /\ (esc' = esc \/ esc' = 0 \/ esc' = 1)
    /\ cursor_inv s' /\ same_config s s'
    /\ forallb event_write_only t = true.
Proof. intros. now apply feed_ok. Qed.

Lemma feed_total_witness :
  exists (esc' : Z) (s' : hd44780_state) (t : trace),
    feed 16 0 [72; 105; 10; 27] (ready 2 16) = Ok esc' s' t
    /\ (esc' = 0 \/ esc' = 0 \/ esc' = 1)
    /\ cursor_inv s' /\ same_config (ready 2 16) s'
    /\ forallb event_write_only t = true.
Proof.
  apply (feed_total 16 0 [72; 105; 10; 27] (ready 2 16)).
  - reflexivity.
  - int_side.
  - unfold cursor_inv. cbn. lia.
  - cbn. lia.
Defined.

Lemma countdown_edge (n : nat) (c : Z) (s : hd44780_state) :
  hd_col s = hd_cols s -> countdown n (hd44780_putc c) s = Ok tt s [].
Proof.
  intros H. induction n as [|n IH]; [reflexivity|].
  cbn [countdown]. rewrite (bind_Ok _ _ _ _ _ _ (putc_edge c s H)).
  now rewrite IH.
Qed.

Lemma while_done (fuel : nat) (cond : hd44780_state -> bool) (body : M unit)
      (s : hd44780_state) :
  cond s = false -> while fuel cond body s = Ok tt s [].
Proof.
  intros H. destruct fuel; cbn [while]; unfold bind, get; rewrite H;
    reflexivity.
Qed.

(** X8. A cursor at the right edge absorbs writes: with the column equal
    to the column count, [putc] and TAB return with the state unchanged
    and nothing emitted, whatever the pins; on the last row NL does the
    same, so the cursor stays pinned until CR, BKSP, CLEAR, HOME or
    RESET. *)
Theorem edge_absorbs (fuel : nat) (s : hd44780_state) :
  hd_col s = hd_cols s ->
  (forall c, hd44780_putc c s = Ok tt s [])
  /\ hd44780_command fuel CMD_TAB s = Ok tt s []
  /\ (int_range (hd_lines s) -> int_range (hd_row s) ->
      hd_row s = hd_lines s - 1 ->
      hd44780_command fuel CMD_NL s = Ok tt s []).
Proof.
  intros H. split; [|split].
  - intros c. now apply putc_edge.
  - unfold hd44780_command, bind, get. cbv beta iota zeta.
    destruct (wrap_int (hd_col s + wrap_int (8 - Z.rem (hd_col s) 8))
              >? hd_cols s);
      now rewrite countdown_edge.
  - intros Hl Hr Hrow. unfold hd44780_command.
    assert (Ec : (fun s0 => hd_col s0 <? hd_cols s0) s = false)
      by (apply Z.ltb_ge; lia).
    rewrite (bind_Ok _ _ _ _ _ _
               (while_done fuel _ (hd44780_putc 32) s Ec)).
    unfold bind, get. cbv beta iota.
    rewrite wrap_int_id
      by (unfold int_range, INT_MIN, INT_MAX in *; lia).
    assert (E : (hd_row s <? hd_lines s - 1) = false)
      by (apply Z.ltb_ge; lia).
    rewrite E. reflexivity.
Qed.

Lemma edge_absorbs_witness :
  hd44780_command 0 CMD_NL
    (set_pins (at_cursor (ready 2 16) 1 16) []) 
  = Ok tt (set_pins (at_cursor (ready 2 16) 1 16) []) [].
Proof.
  refine (proj2 (proj2 (edge_absorbs 0
                          (set_pins (at_cursor (ready 2 16) 1 16) []) _))
                _ _ _).
  - reflexivity.
  - int_side.
  - int_side.
  - reflexivity.
Defined.

(** X9. A backspace undoes the cursor move of a character write: from a
    column below the column count, [putc] followed by BKSP returns to the
    very state it started from, having written the character and then a
    space over it. *)
Theorem putc_bksp_round_trip (fuel : nat) (c : Z) (s : hd44780_state) :
  pins_ok (pins s) = true -> int_range (hd_cols s) ->
  0 <= hd_col s < hd_cols s ->
  (hd44780_putc c ;; hd44780_command fuel CMD_BKSP) s
  = Ok tt s (putc_events (pins s) c ++ bksp_events (pins s)).
Proof.
  intros Hp Hcs Hc.
  assert (W : wrap_int (hd_col s + 1) = hd_col s + 1).
  { apply wrap_int_id. unfold int_range, INT_MIN, INT_MAX in *. lia. }
  eapply bind_Ok_Ok.
  - apply putc_write; [assumption | lia].
  - rewrite W. rewrite cmd_bksp_left_ok;
      cbn [pins hd_col hd_cols set_hd_col]; try assumption; try lia.
    + replace (hd_col s + 1 - 1) with (hd_col s) by lia.
      change (set_hd_col (set_hd_col s (hd_col s + 1)) (hd_col s))
        with (set_hd_col s (hd_col s)).
      rewrite set_hd_col_same by reflexivity. reflexivity.
    + unfold int_range, INT_MIN, INT_MAX in *. lia.
Qed.

Lemma putc_bksp_round_trip_witness :
  (hd44780_putc 65 ;; hd44780_command 0 CMD_BKSP) (at_cursor (ready 2 16) 1 4)
  = Ok tt (at_cursor (ready 2 16) 1 4)
       (putc_events (pins (ready 2 16)) 65 ++ bksp_events (pins (ready 2 16))).
Proof.
  apply (putc_bksp_round_trip 0 65 (at_cursor (ready 2 16) 1 4)).
  - reflexivity.
  - int_side.
  - cbn. lia.
Defined.

(** X10. TAB lands on a tab stop or on the edge: from a column within the
    width it returns with the row unchanged and a column that is a
    multiple of 8 or the column count, at most 8 further right, and
    strictly further right unless the cursor was at the edge. *)
Theorem tab_stops (fuel : nat) (s : hd44780_state) :
  pins_ok (pins s) = true -> int_range (hd_cols s) ->
  0 <= hd_col s <= hd_cols s ->
  exists (s' : hd44780_state) (t : trace),
    hd44780_command fuel CMD_TAB s = Ok tt s' t
    /\ hd_row s' = hd_row s
    /\ hd_col s <= hd_col s' <= hd_cols s
    /\ hd_col s' - hd_col s <= 8
    /\ (hd_col s < hd_cols s -> hd_col s < hd_col s')
    /\ (hd_col s' mod 8 = 0 \/ hd_col s' = hd_cols s).
Proof.
  intros Hp Hcs Hc.
  pose proof (cmd_tab_ok fuel s Hp Hcs Hc) as H. cbv zeta in H.
  fold (tab_target s) in H.
  exists (set_hd_col s (tab_target s)); eexists.
  split; [exact H|]. cbn [hd_row hd_col set_hd_col].
  split; [reflexivity|]. apply tab_target_bounds. exact Hc.
Qed.

Lemma tab_stops_witness :
  exists (s' : hd44780_state) (t : trace),
    hd44780_command 0 CMD_TAB (at_cursor (ready 4 20) 0 3) = Ok tt s' t
    /\ hd_row s' = 0
    /\ 3 <= hd_col s' <= 20
    /\ hd_col s' - 3 <= 8
    /\ (3 < 20 -> 3 < hd_col s')
    /\ (hd_col s' mod 8 = 0 \/ hd_col s' = 20).
Proof.
  apply (tab_stops 0 (at_cursor (ready 4 20) 0 3)).
  - reflexivity.
  - int_side.
  - cbn. lia.
Defined.

(** X11. Distinct cells have distinct addresses: for a valid geometry, two
    cursors on rows below the line count and columns below the column
    count get the same [hd44780_calc_addr] only if they are the same
    position. *)
Theorem calc_addr_injective (s1 s2 : hd44780_state) :
  hd_lines s1 = hd_lines s2 -> hd_cols s1 = hd_cols s2 ->
  geometry_ok (hd_lines s1) (hd_cols s1) ->
  0 <= hd_row s1 < hd_lines s1 -> 0 <= hd_col s1 < hd_cols s1 ->
  0 <= hd_row s2 < hd_lines s2 -> 0 <= hd_col s2 < hd_cols s2 ->
  hd44780_calc_addr s1 = hd44780_calc_addr s2 ->
  hd_row s1 = hd_row s2 /\ hd_col s1 = hd_col s2.
Proof. apply calc_addr_cells. Qed.

Lemma calc_addr_injective_witness :
  hd_row (at_cursor (ready 4 20) 2 0) = hd_row (at_cursor (ready 4 20) 2 0)
  /\ hd_col (at_cursor (ready 4 20) 2 0) = hd_col (at_cursor (ready 4 20) 2 0).
Proof.
  apply (calc_addr_injective (at_cursor (ready 4 20) 2 0)
                             (at_cursor (ready 4 20) 2 0)).
  - reflexivity.
  - reflexivity.
  - unfold geometry_ok. cbn. lia.
  - cbn. lia.
  - cbn. lia.
  - cbn. lia.
  - cbn. lia.
  - reflexivity.
Defined.

(** X12. The message strings are processed as one string: running
    [do_char] over the arguments one after the other is running it over
    their concatenation, so nothing is inserted between two arguments and
    a pending escape carries over from one argument to the next. *)
Theorem feed_args_as_one_string
        (fuel : nat) (esc : Z) (args : list (list Z)) (s : hd44780_state) :
  feed_args fuel esc args s = feed fuel esc (concat args) s.
Proof. apply feed_args_concat. Qed.

(** X13. [do_char] always returns, and the escape flag it leaves is 1
    exactly when it was clear and the character is 27: an escape covers
    one character only, also when that character is 27 again.  The cursor
    stays in range and the configuration unchanged. *)
Theorem do_char_total (fuel : nat) (esc ch : Z) (s : hd44780_state) :
  pins_ok (pins s) = true -> state_int s -> cursor_inv s ->
  (Z.to_nat (hd_cols s) <= fuel)%nat ->
  exists (esc' : Z) (s' : hd44780_state) (t : trace),
    do_char fuel esc ch s = Ok esc' s' t
    /\ (esc' = 1 <-> esc = 0 /\ ch = 27)
    /\ (esc' = 0 \/ esc' = 1)
    /\ cursor_inv s' /\ same_config s s'.
Proof.
  intros Hp Hi Hinv Hf.
  destruct (do_char_ok fuel esc ch s Hp Hi Hinv Hf)
    as (s' & t & E & H1 & H2 & _).
  exists (next_esc esc ch), s', t.
  split; [exact E|]. split; [|split; [|split; assumption]].
  - unfold next_esc.
    destruct (Z.eqb_spec esc 0) as [E0 | E0];
      destruct (Z.eqb_spec ch 27) as [E1 | E1]; cbn [andb];
      split; try tauto; try discriminate; intros (A & B); congruence.
  - unfold next_esc. destruct ((esc =? 0) && (ch =? 27)); auto.
Qed.

Lemma do_char_total_witness :
  exists (esc' : Z) (s' : hd44780_state) (t : trace),
    do_char 16 1 27 (ready 2 16) = Ok esc' s' t
    /\ (esc' = 1 <-> 1 = 0 /\ 27 = 27)
    /\ (esc' = 0 \/ esc' = 1)
    /\ cursor_inv s' /\ same_config (ready 2 16) s'.
Proof.
  apply (do_char_total 16 1 27 (ready 2 16)).
  - reflexivity.
  - int_side.
  - unfold cursor_inv. cbn. lia.
  - cbn. lia.
Defined.

Lemma reset_without_rs (fuel : nat) (s : hd44780_state) :
  pin_line (pins s) HD_PIN_RW <> -1 -> pin_line (pins s) HD_PIN_RS = -1 ->
  hd44780_command fuel CMD_RESET s
  = Stop AssertFailed [set_ev (pins s) HD_PIN_RW false].
Proof.
  intros Hrw Hrs. apply Z.eqb_neq in Hrw. apply Z.eqb_eq in Hrs.
  unfold hd44780_command, cmd_reset_init, hd44780_output4, bind.
  cbv beta iota zeta.
  rewrite set_pin_cases, Hrw. cbv beta iota.
  rewrite set_pin_cases, Hrs. reflexivity.
Qed.

Lemma geometry_ok_supported (lines cols : Z) :
  geometry_ok lines cols ->
  lines_unsupported lines || cols_unsupported lines cols = false
  /\ 0 < lines <= 4 /\ 0 < cols <= 80.
Proof.
  intros Hg. pose proof Hg as (Hl & Hc & Hp).
  assert (Hr : int_range (lines * cols)).
  { unfold int_range, INT_MIN, INT_MAX.
    destruct Hl as [-> | [-> | ->]]; lia. }
  split; [now apply geometry_check_in_range|].
  destruct Hl as [-> | [-> | ->]]; lia.
Qed.



(** X15. With every assigned line number an index into the handle array,
    every line acquired and the driven pins assigned, [hd44780_prepare]
    has requested the assigned lines in pin order and returns with the
    cursor at (0,0): it drives each assigned line low in pin order, waits
    20 ms, runs the RESET command, and as its last step drives the
    backlight line high if the backlight is configured on. *)
Theorem prepare_ready (env : gpio_env) (fuel : nat) (s : hd44780_state) :
  lines_in_bounds (pins s) = true ->
  acquisition_ok env (pins s) = true -> pins_ok (pins s) = true ->
  (hd_bl_on s = 0 \/ pin_line (pins s) HD_PIN_BL <> -1) ->
  hd44780_prepare env fuel s
  = Runs (assigned_lines (pins s))
      (Ok tt (cursor_home s)
          (init_low_events (pins s) ++ [Usleep 20000]
           ++ (reset_init_events s ++ clear_events (pins s))
           ++ (if hd_bl_on s =? 0 then []
               else [set_ev (pins s) HD_PIN_BL true]))).
Proof.
  intros Hb Ha Hp Hbl. rewrite prepare_acquired by assumption.
  now rewrite prepare_drive_ok.
Qed.

Lemma prepare_ready_witness :
  hd44780_prepare (mkEnv true (fun _ _ => true) (fun _ _ => true))
                  0 (at_cursor (ready 2 16) 1 3)
  = Runs [(0, 4); (1, 5); (2, 6); (3, 7); (8, 0); (9, 1); (10, 2); (11, 3)]
      (Ok tt (ready 2 16)
          (init_low_events (pins (ready 2 16)) ++ [Usleep 20000]
           ++ (reset_init_events (ready 2 16)
               ++ clear_events (pins (ready 2 16)))
           ++ [set_ev (pins (ready 2 16)) HD_PIN_BL true])).
Proof.
  refine (prepare_ready (mkEnv true (fun _ _ => true) (fun _ _ => true))
                        0 (at_cursor (ready 2 16) 1 3) _ _ _ _).
  - reflexivity.
  - reflexivity.
  - reflexivity.
  - right. vm_compute. lia.
Defined.

(** X16. A missing RS pin is not caught by the checks of [main]: when they
    pass, every assigned line number is an index into the handle array and
    the lines are acquired, with R/W assigned and RS not, the program
    requests the assigned lines, drives them low, waits 20 ms, drives R/W
    low and then stops on the assertion, whatever the input. *)
Theorem missing_rs_pin_aborts_late
        (env : gpio_env) (fuel : nat) (args : list (list Z))
        (stdin : list Z) (s s1 : hd44780_state) (t0 : trace) :
  main_checks s = Ok tt s1 t0 ->
  lines_in_bounds (pins s1) = true ->
  acquisition_ok env (pins s1) = true ->
  pin_line (pins s1) HD_PIN_RW <> -1 ->
  pin_line (pins s1) HD_PIN_RS = -1 ->
  main_run env fuel args stdin s
  = Runs (assigned_lines (pins s1))
      (Stop AssertFailed
         (init_low_events (pins s1)
          ++ [Usleep 20000; set_ev (pins s1) HD_PIN_RW false])).
Proof.
  intros Hm Hb Ha Hrw Hrs.
  assert (Et : t0 = []).
  { destruct (main_checks_touch_no_line_cases s) as [E | E];
      rewrite E in Hm; [discriminate | now injection Hm]. }
  subst t0. unfold main_run. rewrite Hm.
  rewrite prepare_acquired by assumption.
  rewrite prepare_drive_cases.
  rewrite reset_without_rs by assumption. reflexivity.
Qed.

Lemma missing_rs_pin_aborts_late_witness :
  main_run (mkEnv true (fun _ _ => true) (fun _ _ => true)) 16 [[72; 105]] []
           (set_pins (configured 2 16)
                     [4; -1; -1; -1; -1; -1; -1; -1; -1; 1; 2; 3])
  = Runs [(0, 4); (1, 5); (2, 6); (3, 7); (9, 1); (10, 2); (11, 3)]
      (Stop AssertFailed
         [GpioSet 0 4 false; GpioSet 1 5 false; GpioSet 2 6 false;
          GpioSet 3 7 false; GpioSet 9 1 false; GpioSet 10 2 false;
          GpioSet 11 3 false; Usleep 20000; GpioSet 9 1 false]).
Proof.
  refine (missing_rs_pin_aborts_late
            (mkEnv true (fun _ _ => true) (fun _ _ => true)) 16 [[72; 105]] []
            (set_pins (configured 2 16)
                      [4; -1; -1; -1; -1; -1; -1; -1; -1; 1; 2; 3])
            (set_pins (configured 2 16)
                      [4; 5; 6; 7; -1; -1; -1; -1; -1; 1; 2; 3])
            [] _ _ _ _ _).
  - reflexivity.
  - reflexivity.
  - reflexivity.
  - vm_compute. lia.
  - reflexivity.
Defined.

(** X17. With a valid geometry, interface width 4, the backlight off or
    its pin assigned, and, once the data pins are derived, the driven pins
    assigned, every assigned line number an index into the handle array
    and every line acquired, [main] runs to its [exit(EX_OK)] for every
    list of message strings and every standard input: it never stops on a
    usage error or an assertion. *)
Theorem main_run_exits_ok
        (env : gpio_env) (fuel : nat) (args : list (list Z))
        (stdin : list Z) (s : hd44780_state) :
  hd_ifwidth s = 4 -> geometry_ok (hd_lines s) (hd_cols s) ->
  (hd_bl_on s = 0 \/ pin_line (derived_pins (pins s)) HD_PIN_BL <> -1) ->
  pins_ok (derived_pins (pins s)) = true ->
  lines_in_bounds (derived_pins (pins s)) = true ->
  acquisition_ok env (derived_pins (pins s)) = true ->
  (Z.to_nat (hd_cols s) <= fuel)%nat ->
  exists t,
    main_run env fuel args stdin s
    = Runs (assigned_lines (derived_pins (pins s)))
              (Stop (ExitCode EX_OK) t).
Proof.
  intros Hw Hg Hbl Hp Hb Ha Hf.
  destruct (geometry_ok_supported _ _ Hg) as (Hsup & Hl & Hc).
  set (s1 := set_pins s (derived_pins (pins s))).
  assert (Hm : main_checks s = Ok tt s1 []).
  { rewrite main_checks_outcome.
    apply Z.eqb_eq in Hw. rewrite Hw. cbn [negb orb].
    apply orb_false_iff in Hsup. destruct Hsup as (-> & ->). cbn [orb].
    destruct Hbl as [Hbl | Hbl].
    - apply Z.eqb_eq in Hbl. rewrite Hbl. reflexivity.
    - apply Z.eqb_neq in Hbl. rewrite Hbl, andb_false_r. reflexivity. }
  assert (Hprep : hd44780_prepare env fuel s1
                  = Runs (assigned_lines (pins s1))
                      (Ok tt (cursor_home s1)
                          (init_low_events (pins s1) ++ [Usleep 20000]
                           ++ (reset_init_events s1
                               ++ clear_events (pins s1))
                           ++ (if hd_bl_on s1 =? 0 then []
                               else [set_ev (pins s1) HD_PIN_BL true])))).
  { rewrite prepare_acquired by assumption.
    rewrite prepare_drive_ok by assumption. reflexivity. }
  set (s2 := cursor_home s1) in *.
  assert (Hin : exists e s3 t3, main_input fuel args stdin s2 = Ok e s3 t3).
  { assert (Hfeed : forall input, exists e s3 t3,
               feed fuel 0 input s2 = Ok e s3 t3).
    { intros input.
      destruct (feed_ok fuel input 0 s2) as (e & s3 & t3 & E & _).
      - assumption.
      - unfold state_int, int_range, INT_MIN, INT_MAX. cbn. lia.
      - unfold cursor_inv. cbn. lia.
      - assumption.
      - eauto. }
    unfold main_input. destruct args as [|arg args]; [apply Hfeed|].
    destruct (Hfeed (concat (arg :: args))) as (e & s3 & t3 & E).
    exists e, s3, t3. now rewrite feed_args_concat. }
  destruct Hin as (e & s3 & t3 & Hin).
  unfold main_run. rewrite Hm, Hprep.
  cbn [and_then pins set_pins s1].
  rewrite (bind_Ok _ _ _ _ _ _ Hin).
  unfold stop_with. cbn [after]. eexists. reflexivity.
Qed.

Lemma main_run_exits_ok_witness :
  exists t,
    main_run (mkEnv true (fun _ _ => true) (fun _ _ => true)) 16
             [[65; 66; 10]; [67; 68]] [] (configured 2 16)
    = Runs [(0, 4); (1, 5); (2, 6); (3, 7); (8, 0); (9, 1); (10, 2);
               (11, 3)]
              (Stop (ExitCode EX_OK) t).
Proof.
  apply (main_run_exits_ok (mkEnv true (fun _ _ => true) (fun _ _ => true))
                           16 [[65; 66; 10]; [67; 68]] [] (configured 2 16)).
  - reflexivity.
  - unfold geometry_ok. cbn. lia.
  - right. vm_compute. lia.
  - reflexivity.
  - reflexivity.
  - reflexivity.
  - cbn. lia.
Defined.



(** ** The module's address counter and the driver's cursor *)

Lemma lcd_run_output (p : list Z) (type : reg_type) (data : Z) (d : lcd) :
  lcd_idle d ->
  lcd_idle (lcd_run d (output_events p type data))
  /\ lcd_mem (lcd_run d (output_events p type data))
     = lcd_exec (is_data type) (wrap_u8 data) (lcd_mem d).
Proof.
  intros Hd. rewrite <- output_events_wrap.
  apply lcd_receives_byte; [|assumption].
  unfold wrap_u8. apply Z.mod_pos_bound. lia.
Qed.

Lemma lcd_run_putc (p : list Z) (c : Z) (d : lcd) :
  lcd_idle d ->
  lcd_idle (lcd_run d (putc_events p c))
  /\ lcd_mem (lcd_run d (putc_events p c))
     = mkCore ((lcd_ac (lcd_mem d) + 1) mod 128)
              (ddram_write (lcd_ddram (lcd_mem d)) (lcd_ac (lcd_mem d))
                           (wrap_u8 c)).
Proof.
  intros Hd. unfold putc_events. rewrite lcd_run_app, lcd_run_usleep.
  apply (lcd_run_output p HD_DATA c d Hd).
Qed.

Lemma lcd_run_spaces (p : list Z) (n : nat) :
  forall d : lcd,
    lcd_idle d ->
    0 <= lcd_ac (lcd_mem d) -> lcd_ac (lcd_mem d) + Z.of_nat n < 128 ->
    lcd_idle (lcd_run d (repeat_events n (putc_events p 32)))
    /\ lcd_ac (lcd_mem (lcd_run d (repeat_events n (putc_events p 32))))
       = lcd_ac (lcd_mem d) + Z.of_nat n.
Proof.
  induction n as [|n IH]; intros d Hd H0 Hlt.
  - cbn [repeat_events]. split; [exact Hd | cbn; lia].
  - cbn [repeat_events]. rewrite lcd_run_app.
    destruct (lcd_run_putc p 32 d Hd) as (I1 & M1).
    set (d1 := lcd_run d (putc_events p 32)) in *.
    assert (A1 : lcd_ac (lcd_mem d1) = lcd_ac (lcd_mem d) + 1).
    { rewrite M1. cbn [lcd_ac]. apply Z.mod_small. lia. }
    destruct (IH d1 I1) as (I2 & A2); [lia | lia |].
    split; [exact I2 | lia].
Qed.

Lemma lcd_run_command (p : list Z) (byte : Z) (d : lcd) (c' : lcd_core) :
  lcd_idle d -> lcd_exec false (wrap_u8 byte) (lcd_mem d) = c' ->
  lcd_idle (lcd_run d (output_events p HD_COMMAND byte))
  /\ lcd_mem (lcd_run d (output_events p HD_COMMAND byte)) = c'.
Proof.
  intros Hd <-. apply (lcd_run_output p HD_COMMAND byte d Hd).
Qed.

Lemma lcd_run_set_addr (p : list Z) (a : Z) (d : lcd) :
  lcd_idle d -> 0 <= a < 0x80 ->
  lcd_idle (lcd_run d (set_addr_events p a))
  /\ lcd_mem (lcd_run d (set_addr_events p a))
     = mkCore a (lcd_ddram (lcd_mem d)).
Proof.
  intros Hd Ha. unfold set_addr_events.
  rewrite lcd_run_app, lcd_run_usleep.
  apply lcd_run_command; [assumption|].
  destruct (lor_0x80 a Ha) as (E1 & E2).
  rewrite wrap_u8_id by (rewrite E1; lia).
  unfold lcd_exec.
  assert (E : (0x80 <=? Z.lor HD_CMD_SET_ADDR a) = true)
    by (apply Z.leb_le; rewrite E1; lia).
  rewrite E, E2. reflexivity.
Qed.

Lemma dispctrl_on_range (s : hd44780_state) :
  12 <= dispctrl_on s HD_CMD_DISPCTRL <= 15.
Proof.
  unfold dispctrl_on.
  destruct (hd_cursor s =? 0); destruct (hd_blink s =? 0); cbn; lia.
Qed.

Lemma lcd_exec_dispctrl (byte : Z) (c : lcd_core) :
  8 <= byte <= 15 -> lcd_exec false (wrap_u8 byte) c = c.
Proof.
  intros H. rewrite wrap_u8_id by lia. unfold lcd_exec.
  assert (E1 : (0x80 <=? byte) = false) by (apply Z.leb_gt; lia).
  assert (E2 : (0x20 <=? byte) = false) by (apply Z.leb_gt; lia).
  assert (E3 : (0x10 <=? byte) = false) by (apply Z.leb_gt; lia).
  assert (E4 : (0x04 <=? byte) = true) by (apply Z.leb_le; lia).
  now rewrite E1, E2, E3, E4.
Qed.

Lemma lcd_run_flash (s : hd44780_state) (d : lcd) :
  lcd_idle d ->
  lcd_idle (lcd_run d (flash_events s))
  /\ lcd_mem (lcd_run d (flash_events s)) = lcd_mem d.
Proof.
  assert (Honce : forall d0 : lcd,
             lcd_idle d0 ->
             lcd_idle (lcd_run d0 (flash_once_events s))
             /\ lcd_mem (lcd_run d0 (flash_once_events s)) = lcd_mem d0).
  { intros d0 Hd0. unfold flash_once_events.
    rewrite !lcd_run_app, !lcd_run_usleep.
    destruct (lcd_run_command (pins s) HD_CMD_DISPCTRL d0 (lcd_mem d0) Hd0)
      as (I1 & M1).
    { apply lcd_exec_dispctrl. unfold HD_CMD_DISPCTRL. lia. }
    set (d1 := lcd_run d0 (output_events (pins s) HD_COMMAND HD_CMD_DISPCTRL))
      in *.
    destruct (lcd_run_command (pins s) (dispctrl_on s HD_CMD_DISPCTRL) d1
                              (lcd_mem d1) I1) as (I2 & M2).
    { apply lcd_exec_dispctrl. pose proof (dispctrl_on_range s). lia. }
    split; [exact I2 | congruence]. }
  intros Hd. unfold flash_events. rewrite lcd_run_app.
  destruct (Honce d Hd) as (I1 & M1).
  destruct (Honce _ I1) as (I2 & M2).
  split; [exact I2 | congruence].
Qed.

Lemma calc_addr_col (s : hd44780_state) (v : Z) :
  geometry_ok (hd_lines s) (hd_cols s) ->
  0 <= hd_row s < hd_lines s -> 0 <= v <= hd_cols s ->
  hd44780_calc_addr (set_hd_col s v) = v + row_offset s
  /\ 0 <= row_offset s /\ v + row_offset s < 0x80.
Proof.
  intros Hg Hr Hv.
  apply (calc_addr_exact (set_hd_col s v)); [exact Hg|].
  unfold cursor_inv. cbn. lia.
Qed.

Lemma lcd_sync_step (op : operation) (s : hd44780_state) (d : lcd) :
  op <> OpCommand CMD_RESET ->
  geometry_ok (hd_lines s) (hd_cols s) -> cursor_inv s ->
  lcd_synced s d ->
  lcd_synced (operation_state s op) (lcd_run d (operation_events s op)).
Proof.
  intros Hop Hg Hinv (Hd & Hac).
  pose proof Hinv as (Hr & Hc0 & Hc1).
  destruct (calc_addr_exact s Hg Hinv) as (Ea & Ho & Hlt).
  rewrite Ea in Hac.
  pose proof (tab_target_bounds s (conj Hc0 Hc1)) as (Ht & _).
  unfold lcd_synced.
  destruct op as [cmd | c]; [destruct cmd|];
    cbn [operation_state operation_events].
  - congruence.
  - destruct (hd_col s >? 0) eqn:E.
    + apply Z.gtb_lt in E.
      destruct (lcd_bksp (pins s) d Hd) as (I & A & _).
      split; [exact I|]. rewrite A, Hac.
      destruct (calc_addr_col s (hd_col s - 1) Hg Hr ltac:(lia))
        as (E' & _ & _).
      rewrite E'. rewrite Z.mod_small by lia. lia.
    + rewrite lcd_run_app, lcd_run_usleep.
      destruct (lcd_run_flash s d Hd) as (I & M).
      split; [exact I|]. rewrite M, Hac. now rewrite Ea.
  - unfold clear_events. rewrite lcd_run_app, lcd_run_usleep.
    destruct (lcd_run_command (pins s) HD_CMD_CLEAR d
                              (mkCore 0 (fun _ => 32)) Hd eq_refl)
      as (I & M).
    split; [exact I|]. rewrite M. reflexivity.
  - rewrite lcd_run_app.
    destruct (lcd_run_spaces (pins s) (Z.to_nat (hd_cols s - hd_col s)) d Hd)
      as (I1 & A1); [lia | |].
    { destruct (calc_addr_col s (hd_cols s) Hg Hr ltac:(lia)) as (_ & _ & L).
      lia. }
    set (d1 := lcd_run d (repeat_events (Z.to_nat (hd_cols s - hd_col s))
                                        (putc_events (pins s) 32))) in *.
    destruct (hd_row s <? hd_lines s - 1) eqn:E.
    + apply Z.ltb_lt in E.
      set (s' := set_hd_col (set_hd_row s (hd_row s + 1)) 0).
      assert (Hinv' : cursor_inv s') by (unfold cursor_inv; cbn; lia).
      destruct (calc_addr_exact s' Hg Hinv') as (E' & Ho' & Hlt').
      destruct (lcd_run_set_addr (pins s) (hd44780_calc_addr s') d1 I1)
        as (I2 & M2).
      { rewrite E'. cbn [hd_col s' set_hd_col] in *. lia. }
      split; [exact I2|]. rewrite M2. reflexivity.
    + cbn [lcd_run fold_left]. split; [exact I1|].
      rewrite A1, Hac.
      destruct (calc_addr_col s (hd_cols s) Hg Hr ltac:(lia)) as (E' & _ & _).
      rewrite E'. lia.
  - destruct (calc_addr_col s 0 Hg Hr ltac:(lia)) as (E' & _ & L).
    destruct (lcd_run_set_addr (pins s) (hd44780_calc_addr (set_hd_col s 0))
                               d Hd) as (I & M).
    { rewrite E'. lia. }
    split; [exact I|]. rewrite M. reflexivity.
  - unfold home_events. rewrite lcd_run_app, lcd_run_usleep.
    destruct (lcd_run_command (pins s) HD_CMD_HOME d
                              (mkCore 0 (lcd_ddram (lcd_mem d))) Hd eq_refl)
      as (I & M).
    split; [exact I|]. rewrite M. reflexivity.
  - destruct (calc_addr_col s (tab_target s) Hg Hr ltac:(lia))
      as (E' & _ & L).
    destruct (lcd_run_spaces (pins s) (Z.to_nat (tab_target s - hd_col s))
                             d Hd) as (I & A); [lia | lia |].
    split; [exact I|]. rewrite A, Hac, E'. lia.
  - destruct (lcd_run_flash s d Hd) as (I & M).
    split; [exact I|]. rewrite M, Hac. now rewrite Ea.
  - destruct (hd_col s =? hd_cols s) eqn:E.
    + cbn [lcd_run fold_left]. split; [exact Hd|]. now rewrite Hac, Ea.
    + apply Z.eqb_neq in E.
      destruct (lcd_run_putc (pins s) c d Hd) as (I & M).
      split; [exact I|]. rewrite M. cbn [lcd_ac]. rewrite Hac.
      destruct (calc_addr_col s (hd_col s + 1) Hg Hr ltac:(lia))
        as (E' & _ & L).
      rewrite E'. rewrite Z.mod_small by lia. lia.
Qed.

Lemma geometry_state_int (s : hd44780_state) :
  geometry_ok (hd_lines s) (hd_cols s) -> cursor_inv s -> state_int s.
Proof.
  intros Hg ((Hr0 & Hr1) & Hc0 & Hc1).
  destruct (geometry_ok_supported _ _ Hg) as (_ & Hl & Hc).
  unfold state_int, int_range, INT_MIN, INT_MAX. lia.
Qed.

(** X18. The module's address counter follows the driver's cursor on a
    row that fits its line of display RAM: for a valid geometry and a
    cursor in range, on a row whose addresses up to the one just past its
    last cell are display RAM addresses of the HD44780 (so that the
    address counter never wraps inside the row), if a module in 4-bit mode
    is between two bytes with its address counter at [hd44780_calc_addr]
    of the cursor, then after any operation but RESET it is between two
    bytes again with its address counter at [hd44780_calc_addr] of the new
    cursor. *)
Theorem display_tracks_cursor
        (fuel : nat) (op : operation) (s : hd44780_state) (d : lcd) :
  op <> OpCommand CMD_RESET ->
  pins_ok (pins s) = true ->
  geometry_ok (hd_lines s) (hd_cols s) -> cursor_inv s ->
  ddram_address (hd_lines s) (hd_cols s + row_offset s) = true ->
  (Z.to_nat (hd_cols s - hd_col s) <= fuel)%nat ->
  lcd_synced s d ->
  exists (s' : hd44780_state) (t : trace),
    run_operation fuel op s = Ok tt s' t /\ lcd_synced s' (lcd_run d t).
Proof.
  intros Hop Hp Hg Hinv _ Hf Hs.
  exists (operation_state s op), (operation_events s op). split.
  - apply run_operation_ok; try assumption.
    now apply geometry_state_int.
  - now apply lcd_sync_step.
Qed.

Lemma display_tracks_cursor_witness :
  exists (s' : hd44780_state) (t : trace),
    run_operation 20 (OpCommand CMD_NL) (at_cursor (ready 4 20) 1 3)
    = Ok tt s' t
    /\ lcd_synced s' (lcd_run (lcd_blank 67) t).
Proof.
  apply (display_tracks_cursor 20 (OpCommand CMD_NL)
           (at_cursor (ready 4 20) 1 3) (lcd_blank 67)).
  - discriminate.
  - reflexivity.
  - unfold geometry_ok. cbn. lia.
  - unfold cursor_inv. cbn. lia.
  - reflexivity.
  - cbn. lia.
  - unfold lcd_synced, lcd_idle. cbn. auto.
Defined.

(** X19. A character written inside the width appears at the cursor: with
    the module in step with the driver and the column below the column
    count, [putc] moves the column one right, and the module then holds
    the character (reduced to 8 bits) at the address of the old cursor
    position and its previous content everywhere else. *)
Theorem putc_shows_character (c : Z) (s : hd44780_state) (d : lcd) :
  pins_ok (pins s) = true ->
  geometry_ok (hd_lines s) (hd_cols s) -> cursor_inv s ->
  hd_col s < hd_cols s -> lcd_synced s d ->
  exists t : trace,
    hd44780_putc c s = Ok tt (set_hd_col s (hd_col s + 1)) t
    /\ lcd_ddram (lcd_mem (lcd_run d t)) (hd44780_calc_addr s) = wrap_u8 c
    /\ forall a, a <> hd44780_calc_addr s ->
                 lcd_ddram (lcd_mem (lcd_run d t)) a
                 = lcd_ddram (lcd_mem d) a.
Proof.
  intros Hp Hg Hinv Hlt (Hd & Hac).
  pose proof (geometry_state_int s Hg Hinv) as (_ & Hcs & Hc & _).
  exists (putc_events (pins s) c). split.
  - rewrite putc_write by (try assumption; lia).
    rewrite wrap_int_id by (unfold int_range, INT_MIN, INT_MAX in *; lia).
    reflexivity.
  - destruct (lcd_run_putc (pins s) c d Hd) as (_ & M).
    rewrite M. cbn [lcd_ddram]. rewrite Hac. unfold ddram_write. split.
    + now rewrite Z.eqb_refl.
    + intros a Ha. apply Z.eqb_neq in Ha. now rewrite Ha.
Qed.

Lemma putc_shows_character_witness :
  exists t : trace,
    hd44780_putc 65 (at_cursor (ready 2 16) 1 3)
    = Ok tt (at_cursor (ready 2 16) 1 4) t
    /\ lcd_ddram (lcd_mem (lcd_run (lcd_blank 67) t)) 67 = 65
    /\ forall a, a <> 67 ->
                 lcd_ddram (lcd_mem (lcd_run (lcd_blank 67) t)) a = 32.
Proof.
  apply (putc_shows_character 65 (at_cursor (ready 2 16) 1 3) (lcd_blank 67)).
  - reflexivity.
  - unfold geometry_ok. cbn. lia.
  - unfold cursor_inv. cbn. lia.
  - cbn. lia.
  - unfold lcd_synced, lcd_idle. cbn. auto.
Defined.

(** X20. CLEAR blanks the module and HOME keeps its content: received by
    a module between two bytes, the lines CLEAR drives leave a space in
    every cell and the address counter at 0; those of HOME leave every
    cell as it was and the address counter at 0. *)
Theorem clear_blanks_home_keeps (fuel : nat) (s : hd44780_state) (d : lcd) :
  pins_ok (pins s) = true -> lcd_idle d ->
  exists t_clr t_home : trace,
    hd44780_command fuel CMD_CLR s = Ok tt (cursor_home s) t_clr
    /\ hd44780_command fuel CMD_HOME s = Ok tt (cursor_home s) t_home
    /\ lcd_mem (lcd_run d t_clr) = mkCore 0 (fun _ => 32)
    /\ lcd_mem (lcd_run d t_home) = mkCore 0 (lcd_ddram (lcd_mem d)).
Proof.
  intros Hp Hd.
  exists (clear_events (pins s)), (home_events (pins s)).
  split; [now apply cmd_clr_ok|]. split; [now apply cmd_home_ok|].
  unfold clear_events, home_events.
  rewrite !lcd_run_app, !lcd_run_usleep. split.
  - apply (lcd_run_command (pins s) HD_CMD_CLEAR d _ Hd eq_refl).
  - apply (lcd_run_command (pins s) HD_CMD_HOME d _ Hd eq_refl).
Qed.

Lemma clear_blanks_home_keeps_witness :
  exists t_clr t_home : trace,
    hd44780_command 0 CMD_CLR (at_cursor (ready 2 16) 1 3)
    = Ok tt (ready 2 16) t_clr
    /\ hd44780_command 0 CMD_HOME (at_cursor (ready 2 16) 1 3)
       = Ok tt (ready 2 16) t_home
    /\ lcd_mem (lcd_run (lcd_blank 67) t_clr) = mkCore 0 (fun _ => 32)
    /\ lcd_mem (lcd_run (lcd_blank 67) t_home) = mkCore 0 (fun _ => 32).
Proof.
  apply (clear_blanks_home_keeps 0 (at_cursor (ready 2 16) 1 3)
                                 (lcd_blank 67)).
  - reflexivity.
  - unfold lcd_idle. cbn. auto.
Defined.
